(** * read_gmail.py: the message-to-record normalisation and the entry point

    A shallow embedding of [src/gmail/read_gmail.py].  The script receives
    JSON-shaped Python objects from the Gmail client, flattens one message
    into a record (a Python [dict]) and writes it to a file.

    - Python objects are the inductive type [value]; a [dict] is an
      association list in insertion order, looked up by key.
    - A Python [str] is held as its UTF-8 encoding, one [ascii] per byte;
      a [bytes] object is a list of 8-bit characters.
    - An exception is a value of [exn]; code that may raise returns a
      [result].
    - [main] and the functions that touch the outside world run in the
      monad [prog]: they read an environment [env] (token file, provider
      answers, clock) and log the effects they perform as a list of
      [event]s. *)

From Stdlib Require Import String Ascii List NArith Bool.
Import ListNotations.
Local Open Scope string_scope.
Local Open Scope list_scope.

(** ** Python values and exceptions *)

#[warnings="-register-all"]
Inductive value : Type :=
| VNone
| VBool (b : bool)
| VInt (n : N)
| VStr (s : string)
| VList (l : list value)
| VDict (d : list (string * value)).

Definition pydict := list (string * value).

Inductive exn : Type :=
| KeyError (k : value)
| IndexError
| TypeError
| AttributeError
| ValueError
| BinasciiError
| FileNotFoundError
| HttpError (status : N).

Inductive result (A : Type) : Type :=
| Ok (a : A)
| Raise (e : exn).
Arguments Ok {A} a.
Arguments Raise {A} e.

Definition bind {A B} (r : result A) (k : A -> result B) : result B :=
  match r with
  | Ok a => k a
  | Raise e => Raise e
  end.

Declare Scope py_scope.
Delimit Scope py_scope with py.
Notation "x <- e ;; k" := (bind e (fun x => k))
  (at level 61, e at next level, right associativity) : py_scope.
Local Open Scope py_scope.

(** [try: e except Exception: h] *)
Definition try_except {A} (e : result A) (h : result A) : result A :=
  match e with
  | Ok a => Ok a
  | Raise _ => h
  end.

(** ** Dictionaries *)

Module Dict.

Fixpoint lookup (k : string) (d : pydict) : option value :=
  match d with
  | [] => None
  | (k', v) :: d' => if String.eqb k k' then Some v else lookup k d'
  end.

Definition mem (k : string) (d : pydict) : bool :=
  match lookup k d with Some _ => true | None => false end.

(** [d[k] = v]: the entry is replaced where it stands, a new key is
    appended. *)
Fixpoint set (k : string) (v : value) (d : pydict) : pydict :=
  match d with
  | [] => [(k, v)]
  | (k', v') :: d' =>
      if String.eqb k k' then (k, v) :: d' else (k', v') :: set k v d'
  end.

End Dict.

(** ** Strings, as the interpreter handles them *)

Module Str.

Definition is_continuation (a : ascii) : bool :=
  let n := N_of_ascii a in (128 <=? n)%N && (n <=? 191)%N.

Definition starts_with_continuation (s : string) : bool :=
  match s with
  | String a _ => is_continuation a
  | EmptyString => false
  end.

(** The characters of a [str]: each one is a byte that is not a UTF-8
    continuation byte, with the continuation bytes after it. *)
Fixpoint chars (s : string) : list string :=
  match s with
  | EmptyString => []
  | String a rest =>
      match chars rest with
      | c :: cs =>
          if starts_with_continuation c
          then String a c :: cs
          else String a EmptyString :: c :: cs
      | [] => [String a EmptyString]
      end
  end.

Definition low_bits (k : N) (a : ascii) : N :=
  N.land (N_of_ascii a) (N.ones k).

(** The code point of one character. *)
Definition ord (c : string) : N :=
  match c with
  | String a EmptyString => N_of_ascii a
  | String a (String b EmptyString) =>
      N.lor (N.shiftl (low_bits 5 a) 6) (low_bits 6 b)
  | String a (String b (String c EmptyString)) =>
      N.lor (N.shiftl (low_bits 4 a) 12)
        (N.lor (N.shiftl (low_bits 6 b) 6) (low_bits 6 c))
  | String a (String b (String c (String d EmptyString))) =>
      N.lor (N.shiftl (low_bits 3 a) 18)
        (N.lor (N.shiftl (low_bits 6 b) 12)
           (N.lor (N.shiftl (low_bits 6 c) 6) (low_bits 6 d)))
  | _ => 0
  end%N.

Definition between (lo hi n : N) : bool := (lo <=? n)%N && (n <=? hi)%N.

(** [str.isspace] on one character: the interpreter's whitespace table. *)
Definition isspace (c : string) : bool :=
  let n := ord c in
  between 9 13 n || between 28 32 n
  || (n =? 133)%N || (n =? 160)%N || (n =? 5760)%N
  || between 8192 8202 n || (n =? 8232)%N || (n =? 8233)%N
  || (n =? 8239)%N || (n =? 8287)%N || (n =? 12288)%N.

Fixpoint dropwhile {A} (p : A -> bool) (l : list A) : list A :=
  match l with
  | [] => []
  | x :: l' => if p x then dropwhile p l' else l
  end.

Definition join (cs : list string) : string :=
  fold_right String.append EmptyString cs.

(** [s.strip()] *)
Definition strip (s : string) : string :=
  join (rev (dropwhile isspace (rev (dropwhile isspace (chars s))))).

Definition lower_ascii (a : ascii) : ascii :=
  let n := N_of_ascii a in
  if between 65 90 n then ascii_of_N (n + 32) else a.

(** [s.lower()] on the letters A to Z.  The only character outside
    ASCII whose lower case is an ASCII letter is U+212A (to k), and none
    of the header names compared against contains a k, so the
    comparisons of [parse_email] come out as in the interpreter. *)
Fixpoint lower (s : string) : string :=
  match s with
  | EmptyString => EmptyString
  | String a rest => String (lower_ascii a) (lower rest)
  end.

End Str.

(** ** The library calls of the body decoding *)

Definition bytes := list ascii.

Module Base64.

(** [binascii]'s decoding table: the value of a character of the
    standard alphabet, nothing for any other character. *)
Definition table_a2b_base64 (c : ascii) : option N :=
  (let n := N_of_ascii c in
  if Str.between 65 90 n then Some (n - 65)
  else if Str.between 97 122 n then Some (n - 71)
  else if Str.between 48 57 n then Some (n + 4)
  else if (n =? 43) then Some 62
  else if (n =? 47) then Some 63
  else None)%N.

Definition BASE64_PAD : ascii := "="%char.

(** [binascii.a2b_base64] without strict mode: characters outside the
    alphabet are dropped, a pad sequence that completes a quad ends the
    decoding, and a quad left open at the end of the input is an
    error. *)
Fixpoint a2b_loop (s : list ascii) (quad_pos leftchar pads : N)
    (out : bytes) : result bytes :=
  match s with
  | [] => if (quad_pos =? 0) then Ok (rev out) else Raise BinasciiError
  | this_ch :: s' =>
      if Ascii.eqb this_ch BASE64_PAD then
        if (2 <=? quad_pos) then
          if (4 <=? quad_pos + (pads + 1)) then Ok (rev out)
          else a2b_loop s' quad_pos leftchar (pads + 1) out
        else a2b_loop s' quad_pos leftchar pads out
      else
        match table_a2b_base64 this_ch with
        | None => a2b_loop s' quad_pos leftchar pads out
        | Some v =>
            if (quad_pos =? 0) then a2b_loop s' 1 v 0 out
            else if (quad_pos =? 1) then
              a2b_loop s' 2 (N.land v 15) 0
                (ascii_of_N (N.lor (N.shiftl leftchar 2) (N.shiftr v 4)) :: out)
            else if (quad_pos =? 2) then
              a2b_loop s' 3 (N.land v 3) 0
                (ascii_of_N (N.lor (N.shiftl leftchar 4) (N.shiftr v 2)) :: out)
            else
              a2b_loop s' 0 0 0
                (ascii_of_N (N.lor (N.shiftl leftchar 6) v) :: out)
        end
  end%N.

Definition a2b_base64 (s : list ascii) : result bytes :=
  a2b_loop s 0 0 0 [].

(** [s.encode('ascii')] of [_bytes_from_decode_data] *)
Definition encode_ascii (s : string) : result (list ascii) :=
  let l := list_ascii_of_string s in
  if forallb (fun a => (N_of_ascii a <? 128)%N) l then Ok l
  else Raise ValueError.

(** [s.translate(_urlsafe_decode_translation)] *)
Definition urlsafe_translate (a : ascii) : ascii :=
  if Ascii.eqb a "-"%char then "+"%char
  else if Ascii.eqb a "_"%char then "/"%char
  else a.

(** [base64.urlsafe_b64decode(x)]: a [str] must be ASCII; the values a
    JSON document can hold other than a [str] are not bytes-like. *)
Definition urlsafe_b64decode (x : value) : result bytes :=
  match x with
  | VStr s =>
      l <- encode_ascii s ;;
      a2b_base64 (map urlsafe_translate l)
  | _ => Raise TypeError
  end.

End Base64.

Module Utf8.

Definition byte_in (lo hi : N) (a : ascii) : bool :=
  Str.between lo hi (N_of_ascii a).

(** The second byte a lead byte admits: no overlong form, no surrogate,
    nothing above U+10FFFF. *)
Definition second_ok (lead b : ascii) : bool :=
  let l := N_of_ascii lead in
  if (l =? 224)%N then byte_in 160 191 b
  else if (l =? 237)%N then byte_in 128 159 b
  else if (l =? 240)%N then byte_in 144 191 b
  else if (l =? 244)%N then byte_in 128 143 b
  else Str.is_continuation b.

(** [b.decode("utf-8", errors="ignore")]: a well-formed sequence is
    kept; at an ill-formed one the longest prefix that could start a
    character (at least one byte) is dropped; a character cut short by
    the end of the input is dropped. *)
Fixpoint decode_ignore (s : bytes) : string :=
  match s with
  | [] => EmptyString
  | a :: s1 =>
      if byte_in 0 127 a then String a (decode_ignore s1)
      else if byte_in 194 223 a then
        match s1 with
        | [] => EmptyString
        | b :: s2 =>
            if Str.is_continuation b
            then String a (String b (decode_ignore s2))
            else decode_ignore s1
        end
      else if byte_in 224 239 a then
        match s1 with
        | [] => EmptyString
        | b :: s2 =>
            if second_ok a b then
              match s2 with
              | [] => EmptyString
              | c :: s3 =>
                  if Str.is_continuation c
                  then String a (String b (String c (decode_ignore s3)))
                  else decode_ignore s2
              end
            else decode_ignore s1
        end
      else if byte_in 240 244 a then
        match s1 with
        | [] => EmptyString
        | b :: s2 =>
            if second_ok a b then
              match s2 with
              | [] => EmptyString
              | c :: s3 =>
                  if Str.is_continuation c then
                    match s3 with
                    | [] => EmptyString
                    | d :: s4 =>
                        if Str.is_continuation d
                        then String a (String b (String c (String d
                               (decode_ignore s4))))
                        else decode_ignore s3
                    end
                  else decode_ignore s2
              end
            else decode_ignore s1
        end
      else decode_ignore s1
  end.

End Utf8.

(** ** Operations of the interpreter on values *)

Module Py.

(** [v[k]] with a string key *)
Definition getitem (v : value) (k : string) : result value :=
  match v with
  | VDict d =>
      match Dict.lookup k d with
      | Some x => Ok x
      | None => Raise (KeyError (VStr k))
      end
  | _ => Raise TypeError
  end.

(** [v.get(k, default)]: only a [dict] has the method. *)
Definition get (v : value) (k : string) (default : value) : result value :=
  match v with
  | VDict d =>
      match Dict.lookup k d with
      | Some x => Ok x
      | None => Ok default
      end
  | _ => Raise AttributeError
  end.

(** [v == s] for a string [s] *)
Definition eq_str (v : value) (s : string) : bool :=
  match v with
  | VStr s' => String.eqb s' s
  | _ => false
  end.

(** [k in v] *)
Definition contains (k : string) (v : value) : result bool :=
  match v with
  | VDict d => Ok (Dict.mem k d)
  | VList l => Ok (existsb (fun x => eq_str x k) l)
  | VStr s =>
      Ok (match String.index 0 k s with Some _ => true | None => false end)
  | _ => Raise TypeError
  end.

(** The elements a [for] loop visits. *)
Definition iter (v : value) : result (list value) :=
  match v with
  | VList l => Ok l
  | VDict d => Ok (map (fun kv => VStr (fst kv)) d)
  | VStr s => Ok (map VStr (Str.chars s))
  | _ => Raise TypeError
  end.

(** Truth value of an object in a condition. *)
Definition truthy (v : value) : bool :=
  match v with
  | VNone => false
  | VBool b => b
  | VInt n => negb (n =? 0)%N
  | VStr s => negb (String.eqb s EmptyString)
  | VList l => match l with [] => false | _ => true end
  | VDict d => match d with [] => false | _ => true end
  end.

(** [v.lower()]: only a [str] has the method. *)
Definition lower (v : value) : result string :=
  match v with
  | VStr s => Ok (Str.lower s)
  | _ => Raise AttributeError
  end.

(** [v[0]] *)
Definition first (v : value) : result value :=
  match v with
  | VList (x :: _) => Ok x
  | VList [] => Raise IndexError
  | VStr s =>
      match Str.chars s with
      | c :: _ => Ok (VStr c)
      | [] => Raise IndexError
      end
  | VDict _ => Raise (KeyError (VInt 0))
  | _ => Raise TypeError
  end.

End Py.

(** ** parse_email *)

(** The assignment of one header to the record. *)
Definition header_step (data : pydict) (h : value) : result pydict :=
  n <- Py.getitem h "name" ;;
  name <- Py.lower n ;;
  v <- Py.getitem h "value" ;;
  if String.eqb name "from" then Ok (Dict.set "remitente" v data)
  else if String.eqb name "subject" then Ok (Dict.set "asunto" v data)
  else if String.eqb name "date" then Ok (Dict.set "fecha_correo" v data)
  else Ok data.

(** [for h in headers: ...] *)
Fixpoint headers_loop (headers : list value) (data : pydict) : result pydict :=
  match headers with
  | [] => Ok data
  | h :: rest =>
      data' <- header_step data h ;;
      headers_loop rest data'
  end.

(** [base64.urlsafe_b64decode(x["body"]["data"]).decode("utf-8", errors="ignore")] *)
Definition decode_body (x : value) : result string :=
  b <- Py.getitem x "body" ;;
  d <- Py.getitem b "data" ;;
  raw <- Base64.urlsafe_b64decode d ;;
  Ok (Utf8.decode_ignore raw).

(** [for part in payload["parts"]: ...] of the body extraction: [break]
    at the first plain-text part that decodes, [continue] at one that
    does not. *)
Fixpoint body_loop (parts : list value) (body : string) : result string :=
  match parts with
  | [] => Ok body
  | part :: rest =>
      mime <- Py.get part "mimeType" VNone ;;
      if Py.eq_str mime "text/plain" then
        match decode_body part with
        | Ok text => Ok text
        | Raise _ => body_loop rest body
        end
      else body_loop rest body
  end.

(** [for part in payload["parts"]: ...] of the attachment detection *)
Fixpoint attachments_loop (parts : list value) (attachments : list value)
    : result (list value) :=
  match parts with
  | [] => Ok attachments
  | part :: rest =>
      filename <- Py.get part "filename" VNone ;;
      attachments_loop rest
        (if Py.truthy filename then attachments ++ [filename] else attachments)
  end.

(** [parse_email(msg)]; [now] is what
    [datetime.now(timezone.utc).isoformat()] returns during the call. *)
Definition parse_email (now : string) (msg : value) : result pydict :=
  payload <- Py.get msg "payload" (VDict []) ;;
  headers <- Py.get payload "headers" (VList []) ;;
  id <- Py.getitem msg "id" ;;
  let data := [("id", id); ("fecha_extraccion", VStr now)] in
  hs <- Py.iter headers ;;
  data <- headers_loop hs data ;;
  has_parts <- Py.contains "parts" payload ;;
  body <-
    (if has_parts : bool then
       parts <- Py.getitem payload "parts" ;;
       ps <- Py.iter parts ;;
       body_loop ps ""
     else
       try_except (decode_body payload) (Ok "")) ;;
  let data := Dict.set "body" (VStr (Str.strip body)) data in
  snippet <- Py.get msg "snippet" (VStr "") ;;
  let data := Dict.set "snippet" snippet data in
  labels <- Py.get msg "labelIds" (VList []) ;;
  let data := Dict.set "labels" labels data in
  has_parts <- Py.contains "parts" payload ;;
  attachments <-
    (if has_parts : bool then
       parts <- Py.getitem payload "parts" ;;
       ps <- Py.iter parts ;;
       attachments_loop ps []
     else Ok []) ;;
  let data := Dict.set "adjuntos" (VList attachments) data in
  Ok data.

(** ** The outside world *)

(** An f-string: literal text and interpolated objects. *)
Inductive piece : Type :=
| Lit (s : string)
| Interp (v : value).

Definition fstring := list piece.

(** What a run is given: the state of the token file, the answers of the
    client library and of the provider, and the clock. *)
Record env : Type := {
  BASE_DIR : string;
  (** [TOKEN_PATH.exists()] *)
  token_exists : bool;
  (** [Credentials.from_authorized_user_file(str(TOKEN_PATH), SCOPES)] *)
  from_authorized_user_file : result unit;
  (** [build("gmail", "v1", credentials=creds)] *)
  build : result unit;
  (** [messages().list(userId="me", maxResults=1, labelIds=["INBOX"]).execute()] *)
  messages_list : result value;
  (** [messages().get(userId="me", id=msg_id, format="full").execute()] *)
  messages_get : value -> result value;
  (** [datetime.now(timezone.utc).isoformat()] *)
  now_isoformat : string;
  (** the text of [datetime.now(timezone.utc).timestamp()] in an f-string *)
  now_timestamp : string
}.

Inductive event : Type :=
| EvTokenExists
| EvReadToken
| EvBuild
| EvList
| EvGet (msg_id : value)
| EvPrint (text : fstring)
| EvMakedirs (path : fstring)
| EvWrite (path : fstring) (content : pydict).

(** A computation reads the environment, logs its effects in order and
    returns or raises; the effects before an exception stay logged. *)
Definition prog (A : Type) : Type := env -> list event * result A.

Definition ret {A} (a : A) : prog A := fun _ => ([], Ok a).

Definition pbind {A B} (m : prog A) (k : A -> prog B) : prog B :=
  fun w =>
    match m w with
    | (t, Ok a) => let (t', r) := k a w in (t ++ t', r)
    | (t, Raise e) => (t, Raise e)
    end.

Definition emit (e : event) : prog unit := fun _ => ([e], Ok tt).
Definition ask {A} (f : env -> A) : prog A := fun w => ([], Ok (f w)).
Definition lift {A} (r : result A) : prog A := fun _ => ([], r).
Definition raise {A} (e : exn) : prog A := lift (Raise e).

Notation "x <-- e ;; k" := (pbind e (fun x => k))
  (at level 61, e at next level, right associativity) : py_scope.
Notation "e >> k" := (pbind e (fun _ => k))
  (at level 61, right associativity) : py_scope.

Definition print (text : fstring) : prog unit := emit (EvPrint text).

Definition DATA_DIR (w : env) : fstring := [Lit (BASE_DIR w ++ "/data/incoming")].

(** [load_credentials()] *)
Definition load_credentials : prog unit :=
  emit EvTokenExists >>
  present <-- ask token_exists ;;
  if present : bool then
    emit EvReadToken >>
    r <-- ask from_authorized_user_file ;;
    lift r
  else raise FileNotFoundError.

(** [get_gmail_service()] *)
Definition get_gmail_service : prog unit :=
  load_credentials >>
  emit EvBuild >>
  r <-- ask build ;;
  lift r.

(** [fetch_last_email(service)] *)
Definition fetch_last_email : prog value :=
  emit EvList >>
  r <-- ask messages_list ;;
  results <-- lift r ;;
  messages <-- lift (Py.get results "messages" (VList [])) ;;
  if negb (Py.truthy messages) then
    print [Lit "No se encontraron correos en la bandeja de entrada."] >>
    ret VNone
  else
    lift (m <- Py.first messages ;; Py.getitem m "id").

(** [fetch_email_by_id(service, msg_id)] *)
Definition fetch_email_by_id (msg_id : value) : prog value :=
  emit (EvGet msg_id) >>
  get <-- ask messages_get ;;
  lift (get msg_id).

(** [save_email_json(data)] *)
Definition save_email_json (data : pydict) : prog fstring :=
  dir <-- ask DATA_DIR ;;
  emit (EvMakedirs dir) >>
  ts <-- ask now_timestamp ;;
  let correo_id :=
    match Dict.lookup "id" data with
    | Some v => v
    | None => VStr ("sin_id_" ++ ts)
    end in
  let path := dir ++ [Lit "/mail_"; Interp correo_id; Lit ".json"] in
  emit (EvWrite path data) >>
  print (Lit "Correo guardado: " :: path) >>
  ret path.

(** The outcome of [parser.parse_args()]. *)
Record Namespace : Type := {
  last : bool;
  id : option string
}.

(** [if args.id:] *)
Definition id_given (args : Namespace) : option string :=
  match id args with
  | Some s => if String.eqb s EmptyString then None else Some s
  | None => None
  end.

(** The mode selection of [main]: the identifier to process, or nothing
    where [main] returns early. *)
Definition select_mode (args : Namespace) : prog (option value) :=
  match id_given args with
  | Some s =>
      let msg_id := VStr s in
      print [Lit "Leyendo correo con ID: "; Interp msg_id] >>
      ret (Some msg_id)
  | None =>
      if last args then
        msg_id <-- fetch_last_email ;;
        if negb (Py.truthy msg_id) then ret None
        else
          print [Lit "Ultimo correo detectado: "; Interp msg_id] >>
          ret (Some msg_id)
      else
        print [Lit "Usa --last o --id para especificar el modo de lectura."] >>
        ret None
  end.

(** [main()], from the parsed arguments on. *)
Definition main (args : Namespace) : prog unit :=
  get_gmail_service >>
  target <-- select_mode args ;;
  match target with
  | None => ret tt
  | Some msg_id =>
      msg <-- fetch_email_by_id msg_id ;;
      now <-- ask now_isoformat ;;
      parsed <-- lift (parse_email now msg) ;;
      save_email_json parsed >>
      print [Lit "Proceso finalizado correctamente."]
  end.

(** ** Well-formed messages

    What the provider's schema guarantees and [parse_email] relies on:
    the message and its payload are objects, the header list holds
    name/value objects whose name is a string, the parts list holds
    objects.  Every field may be absent. *)

Definition is_dict (v : value) : bool :=
  match v with VDict _ => true | _ => false end.

Definition wf_header (h : value) : bool :=
  match h with
  | VDict d =>
      match Dict.lookup "name" d with
      | Some (VStr _) => Dict.mem "value" d
      | _ => false
      end
  | _ => false
  end.

Definition wf_payload (p : value) : bool :=
  match p with
  | VDict d =>
      match Dict.lookup "headers" d with
      | None => true
      | Some (VList hs) => forallb wf_header hs
      | Some _ => false
      end
      && match Dict.lookup "parts" d with
         | None => true
         | Some (VList ps) => forallb is_dict ps
         | Some _ => false
         end
  | _ => false
  end.

Definition well_formed (msg : value) : bool :=
  match msg with
  | VDict m =>
      match Dict.lookup "payload" m with
      | None => true
      | Some p => wf_payload p
      end
  | _ => false
  end.

Definition carries_id (msg : value) : bool :=
  match msg with
  | VDict m => Dict.mem "id" m
  | _ => false
  end.

(** The fields of a well-formed message. *)

Definition payload_of (msg : value) : pydict :=
  match msg with
  | VDict m =>
      match Dict.lookup "payload" m with
      | Some (VDict p) => p
      | _ => []
      end
  | _ => []
  end.

Definition headers_of (msg : value) : list value :=
  match Dict.lookup "headers" (payload_of msg) with
  | Some (VList hs) => hs
  | _ => []
  end.

Definition parts_of (msg : value) : option (list value) :=
  match Dict.lookup "parts" (payload_of msg) with
  | Some (VList ps) => Some ps
  | _ => None
  end.

Definition field_or (msg : value) (k : string) (default : value) : value :=
  match msg with
  | VDict m =>
      match Dict.lookup k m with
      | Some v => v
      | None => default
      end
  | _ => default
  end.

(** A part whose declared MIME type is exactly "text/plain". *)
Definition is_plain_text (part : value) : bool :=
  match part with
  | VDict d =>
      match Dict.lookup "mimeType" d with
      | Some (VStr m) => String.eqb m "text/plain"
      | _ => false
      end
  | _ => false
  end.

Definition decodes (part : value) : bool :=
  match decode_body part with
  | Ok _ => true
  | Raise _ => false
  end.

Definition text_of (part : value) : string :=
  match decode_body part with
  | Ok text => text
  | Raise _ => EmptyString
  end.

(** The first part of the list itself that is plain text and decodes. *)
Definition top_level_text (parts : list value) : string :=
  match find (fun p => is_plain_text p && decodes p) parts with
  | Some p => text_of p
  | None => EmptyString
  end.

(** The file name a part declares, when it is not empty. *)
Definition declared_filename (part : value) : list string :=
  match part with
  | VDict d =>
      match Dict.lookup "filename" d with
      | Some (VStr f) => if String.eqb f EmptyString then [] else [f]
      | _ => []
      end
  | _ => []
  end.

(** The file name of a part, where there is one, is a string. *)
Definition filename_typed (part : value) : bool :=
  match part with
  | VDict d =>
      match Dict.lookup "filename" d with
      | Some (VStr _) | None => true
      | Some _ => false
      end
  | _ => false
  end.

(** Two names are equal up to the case of their letters. *)
Definition ci_eq (a b : string) : bool :=
  String.eqb (Str.lower a) (Str.lower b).

Definition named (key : string) (h : value) : bool :=
  match h with
  | VDict d =>
      match Dict.lookup "name" d with
      | Some (VStr n) => ci_eq n key
      | _ => false
      end
  | _ => false
  end.

(** The three headers [parse_email] keeps, with the name each one is
    looked up by and the key it is stored under. *)
Inductive header_kind : Type := HFrom | HSubject | HDate.

Definition header_name (k : header_kind) : string :=
  match k with
  | HFrom => "From"
  | HSubject => "Subject"
  | HDate => "Date"
  end.

Definition record_key (k : header_kind) : string :=
  match k with
  | HFrom => "remitente"
  | HSubject => "asunto"
  | HDate => "fecha_correo"
  end.

(** The value of the last header of the list with the given name. *)
Definition header_value (h : value) : option value :=
  match h with
  | VDict d => Dict.lookup "value" d
  | _ => None
  end.

Definition last_header (key : string) (headers : list value) : option value :=
  match find (named key) (rev headers) with
  | Some h => header_value h
  | None => None
  end.

Fixpoint first_some {A B} (f : A -> option B) (l : list A) : option B :=
  match l with
  | [] => None
  | x :: l' =>
      match f x with
      | Some y => Some y
      | None => first_some f l'
      end
  end.

(** Modelled from the spec: the body selection of the data model, "first
    plain-text part found (depth-first over payload parts, first match
    wins)", which also descends into the parts of a part. *)
Fixpoint depth_first_text (part : value) : option string :=
  if is_plain_text part && decodes part then Some (text_of part)
  else
    match part with
    | VDict d =>
        (fix parts_in (d : pydict) : option string :=
           match d with
           | [] => None
           | (k, v) :: d' =>
               if String.eqb k "parts" then
                 match v with
                 | VList ps => first_some depth_first_text ps
                 | _ => None
                 end
               else parts_in d'
           end) d
    | _ => None
    end.

Definition depth_first_body (msg : value) : string :=
  match parts_of msg with
  | Some ps =>
      match first_some depth_first_text ps with
      | Some t => t
      | None => EmptyString
      end
  | None => EmptyString
  end.

(** Events by kind. *)

Definition is_list_call (e : event) : bool :=
  match e with EvList => true | _ => false end.

Definition is_fetch_by_id (e : event) : bool :=
  match e with EvGet _ => true | _ => false end.

Definition is_write (e : event) : bool :=
  match e with EvWrite _ _ | EvMakedirs _ => true | _ => false end.

(** The provider's answer to the listing holds no message. *)
Definition no_messages (results : value) : bool :=
  match results with
  | VDict d =>
      match Dict.lookup "messages" d with
      | None | Some (VList []) => true
      | Some _ => false
      end
  | _ => false
  end.

Definition usage_notice : event :=
  EvPrint [Lit "Usa --last o --id para especificar el modo de lectura."].

(** ** Sample messages and environments *)

Definition round_trip_msg : value :=
  VDict [("id", VStr "18c2f0a1b2c3d4e5");
         ("snippet", VStr "Hello");
         ("labelIds", VList [VStr "INBOX"; VStr "UNREAD"]);
         ("payload", VDict
            [("mimeType", VStr "multipart/mixed");
             ("headers", VList
                [VDict [("name", VStr "From"); ("value", VStr "a@x.com")];
                 VDict [("name", VStr "Subject"); ("value", VStr "Hi")];
                 VDict [("name", VStr "Date"); ("value", VStr "Mon, 1 Jan 2024")]]);
             ("parts", VList
                [VDict [("mimeType", VStr "text/plain"); ("filename", VStr "");
                        ("body", VDict [("size", VInt 5); ("data", VStr "SGVsbG8=")])];
                 VDict [("mimeType", VStr "application/pdf");
                        ("filename", VStr "invoice.pdf");
                        ("body", VDict [("attachmentId", VStr "ANGjdJ8");
                                        ("size", VInt 1024)])]])])].

Definition html_part : value :=
  VDict [("mimeType", VStr "text/html");
         ("body", VDict [("data", VStr "PGI-SGk8L2I-")])].

Definition broken_plain_part : value :=
  VDict [("mimeType", VStr "text/plain");
         ("body", VDict [("data", VStr "SGVsbG8")])].

Definition empty_plain_part : value :=
  VDict [("mimeType", VStr "text/plain"); ("body", VDict [("size", VInt 0)])].

Definition plain_part : value :=
  VDict [("mimeType", VStr "text/plain");
         ("body", VDict [("data", VStr "IEhvbGEgbXVuZG8K")])].

Definition pdf_part : value :=
  VDict [("mimeType", VStr "application/pdf"); ("filename", VStr "factura.pdf");
         ("body", VDict [("attachmentId", VStr "ANGjdJ8")])].

Definition message_with (msg_id : string) (payload : pydict) : value :=
  VDict [("id", VStr msg_id); ("threadId", VStr msg_id);
         ("labelIds", VList [VStr "INBOX"]); ("snippet", VStr "Hola");
         ("payload", VDict payload)].

Definition mixed_msg : value :=
  message_with "m1"
    [("mimeType", VStr "multipart/mixed");
     ("headers", VList
        [VDict [("name", VStr "FROM"); ("value", VStr "uno@x.com")];
         VDict [("name", VStr "subject"); ("value", VStr "Factura")];
         VDict [("name", VStr "From"); ("value", VStr "dos@x.com")]]);
     ("parts", VList
        [html_part; broken_plain_part; empty_plain_part; plain_part; pdf_part])].

Definition nested_msg : value :=
  message_with "m2"
    [("mimeType", VStr "multipart/mixed");
     ("parts", VList
        [VDict [("mimeType", VStr "multipart/alternative");
                ("parts", VList [plain_part; html_part])];
         pdf_part])].

Definition single_msg : value :=
  message_with "m3"
    [("mimeType", VStr "text/plain");
     ("body", VDict [("size", VInt 12); ("data", VStr "IEhvbGEgbXVuZG8K")])].

Definition no_id_msg : value :=
  VDict [("snippet", VStr "Hola");
         ("payload", VDict [("mimeType", VStr "text/plain");
                            ("body", VDict [("data", VStr "SGVsbG8=")])])].

Definition clock : string := "2025-10-01T08:00:00+00:00".

Definition mailbox (listing : result value) (store : list (string * value))
    : env :=
  {| BASE_DIR := "/srv/despacho";
     token_exists := true;
     from_authorized_user_file := Ok tt;
     build := Ok tt;
     messages_list := listing;
     messages_get := fun i =>
       match i with
       | VStr s =>
           match Dict.lookup s store with
           | Some m => Ok m
           | None => Raise (HttpError 404)
           end
       | _ => Raise (HttpError 400)
       end;
     now_isoformat := clock;
     now_timestamp := "1759305600.0" |}.

Definition empty_mailbox : env :=
  mailbox (Ok (VDict [("resultSizeEstimate", VInt 0)])) [].

Definition unauthorized (w : env) : env :=
  {| BASE_DIR := BASE_DIR w;
     token_exists := false;
     from_authorized_user_file := from_authorized_user_file w;
     build := build w;
     messages_list := messages_list w;
     messages_get := messages_get w;
     now_isoformat := now_isoformat w;
     now_timestamp := now_timestamp w |}.

(** ** Views used by the statements *)

Definition parts_list (msg : value) : list value :=
  match parts_of msg with
  | Some ps => ps
  | None => []
  end.

(** The record [parse_email] returns, from what its loops computed. *)
Definition assemble (msg : value) (data : pydict) (body : string)
    (attachments : list value) : pydict :=
  Dict.set "adjuntos" (VList attachments)
    (Dict.set "labels" (field_or msg "labelIds" (VList []))
       (Dict.set "snippet" (field_or msg "snippet" (VStr ""))
          (Dict.set "body" (VStr (Str.strip body)) data))).

(** The text the body extraction selects. *)
Definition selected_text (msg : value) : string :=
  match parts_of msg with
  | Some ps => top_level_text ps
  | None =>
      match decode_body (VDict (payload_of msg)) with
      | Ok text => text
      | Raise _ => EmptyString
      end
  end.

(** The shape of a part that the body extraction looks at. *)
Definition surface (part : value) : option value * option value :=
  match part with
  | VDict d => (Dict.lookup "mimeType" d, Dict.lookup "body" d)
  | _ => (None, None)
  end.

(** The computed path of [save_email_json]. *)
Definition mail_path (w : env) (data : pydict) : fstring :=
  DATA_DIR w ++
  [Lit "/mail_";
   Interp match Dict.lookup "id" data with
          | Some v => v
          | None => VStr ("sin_id_" ++ now_timestamp w)
          end;
   Lit ".json"].

(** What [main] does before it fetches the message. *)
Definition prelude (args : Namespace) : prog (option value) :=
  get_gmail_service >> select_mode args.

Definition calm (e : event) : bool :=
  negb (is_fetch_by_id e || is_write e).

(** ** More samples *)

Definition bare_msg : value := VDict [("id", VStr "m0")].

Definition flat_msg : value :=
  message_with "m4"
    [("mimeType", VStr "multipart/mixed");
     ("parts", VList
        [VDict [("mimeType", VStr "multipart/alternative")]; pdf_part])].

Definition broken_single_msg : value :=
  message_with "m5"
    [("mimeType", VStr "text/plain");
     ("body", VDict [("size", VInt 3); ("data", VStr "SGVsbG8")])].

Definition no_mail_notice : event :=
  EvPrint [Lit "No se encontraron correos en la bandeja de entrada."].

Definition neither_flag : Namespace := {| last := false; id := None |}.

Definition last_flag : Namespace := {| last := true; id := None |}.

Definition id_flag (s : string) : Namespace := {| last := false; id := Some s |}.

(** ** Views used by the further properties *)

Definition is_file_write (e : event) : bool :=
  match e with EvWrite _ _ => true | _ => false end.

Definition reading_notice (s : string) : event :=
  EvPrint [Lit "Leyendo correo con ID: "; Interp (VStr s)].

Definition detected_notice (msg_id : value) : event :=
  EvPrint [Lit "Ultimo correo detectado: "; Interp msg_id].



(** A header [parse_email] keeps. *)
Definition kept_header (h : value) : bool :=
  named "From" h || named "Subject" h || named "Date" h.

(** The message with the given header list in its payload. *)
Definition with_headers (headers : list value) (msg : value) : value :=
  match msg with
  | VDict m =>
      VDict (Dict.set "payload"
               (VDict (Dict.set "headers" (VList headers) (payload_of msg))) m)
  | _ => msg
  end.

(** The message with the given parts list in its payload. *)
Definition with_parts (parts : list value) (msg : value) : value :=
  match msg with
  | VDict m =>
      VDict (Dict.set "payload"
               (VDict (Dict.set "parts" (VList parts) (payload_of msg))) m)
  | _ => msg
  end.

Definition keys (d : pydict) : list string := map fst d.

Definition record_fields : list string :=
  ["id"; "fecha_extraccion"; "remitente"; "asunto"; "fecha_correo";
   "body"; "snippet"; "labels"; "adjuntos"].

Definition broken_client (w : env) : env :=
  {| BASE_DIR := BASE_DIR w;
     token_exists := true;
     from_authorized_user_file := Ok tt;
     build := Raise (HttpError 503);
     messages_list := messages_list w;
     messages_get := messages_get w;
     now_isoformat := now_isoformat w;
     now_timestamp := now_timestamp w |}.

(** * test_gmail_auth.py: the authorisation script *)

Module AuthTest.

(** What the script reads of a [Credentials] object: its [valid] and
    [expired] properties, its [refresh_token], and the text of
    [to_json()]. *)
Record credentials : Type := {
  valid : bool;
  expired : bool;
  refresh_token : value;
  to_json : string
}.

(** What a run is given: the state of the token file and the answers of
    the libraries. *)
Record env : Type := {
  (** [os.path.exists(token_path)] *)
  token_exists : bool;
  (** [Credentials.from_authorized_user_file(token_path, SCOPES)] *)
  from_authorized_user_file : result credentials;
  (** the object after [creds.refresh(Request())] *)
  refresh : credentials -> result credentials;
  (** [InstalledAppFlow.from_client_secrets_file(cred_path, SCOPES)] *)
  from_client_secrets_file : result unit;
  (** [flow.run_local_server(port=0)] *)
  run_local_server : result credentials;
  (** [build('gmail', 'v1', credentials=creds)] *)
  build : result unit;
  (** [messages().list(userId='me', maxResults=5).execute()] *)
  messages_list : result value
}.

Inductive event : Type :=
| TokenExists
| ReadToken
| Refresh
| ClientSecrets
| LocalServer
| WriteToken (json : string)
| Build
| ListMessages
| Print (text : fstring).

Definition prog (A : Type) : Type := env -> list event * result A.

Definition ret {A} (a : A) : prog A := fun _ => ([], Ok a).

Definition pbind {A B} (m : prog A) (k : A -> prog B) : prog B :=
  fun w =>
    match m w with
    | (t, Ok a) => let (t', r) := k a w in (t ++ t', r)
    | (t, Raise e) => (t, Raise e)
    end.

Definition emit (e : event) : prog unit := fun _ => ([e], Ok tt).
Definition ask {A} (f : env -> result A) : prog A := fun w => ([], f w).
Definition lift {A} (r : result A) : prog A := fun _ => ([], r).

Notation "x <~ e ;; k" := (pbind e (fun x => k))
  (at level 61, e at next level, right associativity).
Notation "e ~> k" := (pbind e (fun _ => k))
  (at level 61, right associativity).

(** [if os.path.exists(token_path): creds = Credentials.from_authorized_user_file(...)] *)
Definition load_token : prog (option credentials) :=
  emit TokenExists ~>
  (fun w =>
     if token_exists w then
       (emit ReadToken ~> c <~ ask from_authorized_user_file ;; ret (Some c)) w
     else ret None w).

(** [flow = InstalledAppFlow.from_client_secrets_file(...); creds = flow.run_local_server(port=0)] *)
Definition interactive_flow : prog credentials :=
  emit ClientSecrets ~>
  ask from_client_secrets_file ~>
  emit LocalServer ~>
  ask run_local_server.

(** [creds and creds.expired and creds.refresh_token] *)
Definition can_refresh (creds : option credentials) : bool :=
  match creds with
  | Some c => expired c && Py.truthy (refresh_token c)
  | None => false
  end.

(** [not creds or not creds.valid] *)
Definition needs_renewal (creds : option credentials) : bool :=
  match creds with
  | Some c => negb (valid c)
  | None => true
  end.

(** The credentials the script goes on with: the stored ones when they
    are valid, else the renewed ones, written to the token file. *)
Definition authorize : prog credentials :=
  creds <~ load_token ;;
  match creds with
  | Some c =>
      if needs_renewal creds then
        c' <~ (if can_refresh creds
               then emit Refresh ~> (fun w => ([], refresh w c))
               else interactive_flow) ;;
        emit (WriteToken (to_json c')) ~> ret c'
      else ret c
  | None =>
      c' <~ interactive_flow ;;
      emit (WriteToken (to_json c')) ~> ret c'
  end.

(** [for msg in messages: print(f"- ID: {msg['id']}")] *)
Fixpoint print_ids (messages : list value) : prog unit :=
  match messages with
  | [] => ret tt
  | msg :: rest =>
      msg_id <~ lift (Py.getitem msg "id") ;;
      emit (Print [Lit "- ID: "; Interp msg_id]) ~>
      print_ids rest
  end.

(** The listing of the last lines of [main]. *)
Definition report : prog unit :=
  emit ListMessages ~>
  results <~ ask messages_list ;;
  messages <~ lift (Py.get results "messages" (VList [])) ;;
  if negb (Py.truthy messages) then
    emit (Print [Lit "No hay correos."])
  else
    emit (Print [Lit "Últimos 5 correos:"]) ~>
    ms <~ lift (Py.iter messages) ;;
    print_ids ms.

(** [main()] *)
Definition main : prog unit :=
  authorize ~>
  emit Build ~>
  ask build ~>
  report.

Definition renews (e : event) : bool :=
  match e with
  | Refresh | ClientSecrets | LocalServer | WriteToken _ => true
  | _ => false
  end.

Definition is_write_token (e : event) : bool :=
  match e with WriteToken _ => true | _ => false end.

Definition id_line (msg_id : value) : event :=
  Print [Lit "- ID: "; Interp msg_id].

Definition stored (c : credentials) : credentials :=
  {| valid := false; expired := true;
     refresh_token := VStr "1//0g"; to_json := to_json c |}.

Definition fresh : credentials :=
  {| valid := true; expired := false;
     refresh_token := VStr "1//0g"; to_json := "{token: fresh}" |}.

Definition sample (exists_ : bool) (c : credentials) (listing : value) : env :=
  {| token_exists := exists_;
     from_authorized_user_file := Ok c;
     refresh := fun _ => Ok fresh;
     from_client_secrets_file := Ok tt;
     run_local_server := Ok fresh;
     build := Ok tt;
     messages_list := Ok listing |}.

End AuthTest.

(** ** Further samples and views *)

Definition two_listed : value :=
  VDict [("messages", VList [VDict [("id", VStr "m3"); ("threadId", VStr "m3")];
                             VDict [("id", VStr "m1"); ("threadId", VStr "m1")]]);
         ("resultSizeEstimate", VInt 2)].

Definition noisy_msg : value :=
  message_with "m8"
    [("headers", VList
        [VDict [("name", VStr "Received"); ("value", VStr "by 10.0.0.1")];
         VDict [("name", VStr "From"); ("value", VStr "uno@x.com")];
         VDict [("name", VStr "X-Mailer"); ("value", VStr "x")];
         VDict [("name", VStr "DATE"); ("value", VStr "Mon, 1 Jan 2024")]]);
     ("body", VDict [("data", VStr "SGVsbG8=")])].

Definition sound_keys (d : pydict) : Prop :=
  NoDup (keys d) /\
  (forall x, In x (keys d) -> In x record_fields) /\
  firstn 2 (keys d) = ["id"; "fecha_extraccion"].

Definition lookup_error (e : exn) : bool :=
  match e with
  | KeyError _ | TypeError | AttributeError => true
  | _ => false
  end.

(** The credentials phase, case by case. *)
Definition renewal (w : AuthTest.env) (pre : list AuthTest.event)
    (r : list AuthTest.event * result AuthTest.credentials)
    : list AuthTest.event * result AuthTest.credentials :=
  match r with
  | (t, Ok c) => (pre ++ t ++ [AuthTest.WriteToken (AuthTest.to_json c)], Ok c)
  | (t, Raise e) => (pre ++ t, Raise e)
  end.

Definition failing_refresh (w : AuthTest.env) : AuthTest.env :=
  {| AuthTest.token_exists := AuthTest.token_exists w;
     AuthTest.from_authorized_user_file := AuthTest.from_authorized_user_file w;
     AuthTest.refresh := fun _ => Raise (HttpError 400);
     AuthTest.from_client_secrets_file := AuthTest.from_client_secrets_file w;
     AuthTest.run_local_server := AuthTest.run_local_server w;
     AuthTest.build := AuthTest.build w;
     AuthTest.messages_list := AuthTest.messages_list w |}.

(** * Properties *)

Ltac bind_inv H :=
  repeat match type of H with
    | bind ?e _ = Ok _ =>
        let x := fresh "x" in
        let E := fresh "E" in
        destruct e as [x|] eqn:E; cbn [bind] in H; [|discriminate H]
    end.

(** ** Dictionaries *)

Lemma lookup_set_eq (k : string) (v : value) (d : pydict) :
  Dict.lookup k (Dict.set k v d) = Some v.
Proof.
  induction d as [|[k' v'] d IH]; simpl.
  - now rewrite String.eqb_refl.
  - destruct (String.eqb k k') eqn:E; simpl.
    + now rewrite String.eqb_refl.
    + now rewrite E.
Qed.

Lemma lookup_set_ne (k k' : string) (v : value) (d : pydict) :
  k <> k' -> Dict.lookup k (Dict.set k' v d) = Dict.lookup k d.
Proof.
  intros Hne. induction d as [|[k0 v0] d IH]; simpl.
  - apply String.eqb_neq in Hne. now rewrite Hne.
  - destruct (String.eqb k' k0) eqn:E; simpl.
    + apply String.eqb_eq in E. subst k0.
      apply String.eqb_neq in Hne. now rewrite Hne.
    + now rewrite IH.
Qed.

Lemma find_app {A} (p : A -> bool) (l1 l2 : list A) :
  find p (l1 ++ l2) =
  match find p l1 with
  | Some x => Some x
  | None => find p l2
  end.
Proof.
  induction l1 as [|x l1 IH]; simpl; auto.
  destruct (p x); auto.
Qed.

Lemma find_none_iff {A} (p : A -> bool) (l : list A) :
  (forall x, In x l -> p x = false) -> find p l = None.
Proof.
  induction l as [|x l IH]; simpl; intros H; auto.
  rewrite (H x) by auto. apply IH. auto.
Qed.

(** ** The loops of parse_email on well-formed lists *)

Lemma get_mime_plain (part : value) :
  is_dict part = true ->
  exists m, Py.get part "mimeType" VNone = Ok m /\
            Py.eq_str m "text/plain" = is_plain_text part.
Proof.
  destruct part; try discriminate. intros _. simpl.
  destruct (Dict.lookup "mimeType" d) as [[]|]; eexists; split; reflexivity.
Qed.

Lemma body_loop_find (parts : list value) (body : string) :
  forallb is_dict parts = true ->
  body_loop parts body =
  Ok match find (fun p => is_plain_text p && decodes p) parts with
     | Some p => text_of p
     | None => body
     end.
Proof.
  induction parts as [|part rest IH]; simpl; intros Hwf; auto.
  apply andb_prop in Hwf. destruct Hwf as [Hd Hrest].
  destruct (get_mime_plain part Hd) as [m [Hget Hm]].
  rewrite Hget. simpl. rewrite Hm, (IH Hrest).
  unfold decodes, text_of.
  destruct (is_plain_text part); simpl; auto.
  destruct (decode_body part) eqn:E; simpl; rewrite ?E; auto.
Qed.

Lemma attachments_loop_filenames (parts : list value) (acc : list value) :
  forallb filename_typed parts = true ->
  attachments_loop parts acc =
  Ok (acc ++ map VStr (flat_map declared_filename parts)).
Proof.
  revert acc.
  induction parts as [|part rest IH]; simpl; intros acc Hwf.
  - now rewrite app_nil_r.
  - apply andb_prop in Hwf. destruct Hwf as [Hf Hrest].
    destruct part; try discriminate. simpl in *.
    destruct (Dict.lookup "filename" d) as [[]|]; try discriminate; simpl.
    + rewrite IH by assumption.
      destruct (String.eqb s EmptyString); simpl; auto.
      now rewrite <- app_assoc.
    + now rewrite IH.
Qed.

Lemma attachments_loop_total (parts : list value) (acc : list value) :
  forallb is_dict parts = true ->
  exists atts, attachments_loop parts acc = Ok atts.
Proof.
  revert acc.
  induction parts as [|part rest IH]; simpl; intros acc Hwf; eauto.
  apply andb_prop in Hwf. destruct Hwf as [Hd Hrest].
  destruct part; try discriminate. simpl.
  destruct (Dict.lookup "filename" d); simpl; auto.
Qed.

Lemma record_key_cases (k : header_kind) :
  record_key k = "remitente" \/ record_key k = "asunto" \/
  record_key k = "fecha_correo".
Proof. destruct k; simpl; auto. Qed.

Lemma header_step_other (data data' : pydict) (h : value) (key : string) :
  (forall k, key <> record_key k) ->
  header_step data h = Ok data' ->
  Dict.lookup key data' = Dict.lookup key data.
Proof.
  intros Hkey. unfold header_step.
  destruct (Py.getitem h "name") as [n|]; simpl; try discriminate.
  destruct (Py.lower n) as [name|]; simpl; try discriminate.
  destruct (Py.getitem h "value") as [v|]; simpl; try discriminate.
  destruct (String.eqb name "from");
    [|destruct (String.eqb name "subject");
       [|destruct (String.eqb name "date")]];
    intros H; injection H as <-; auto;
    apply lookup_set_ne.
  - apply (Hkey HFrom).
  - apply (Hkey HSubject).
  - apply (Hkey HDate).
Qed.

Lemma headers_loop_other (headers : list value) (data data' : pydict)
    (key : string) :
  (forall k, key <> record_key k) ->
  headers_loop headers data = Ok data' ->
  Dict.lookup key data' = Dict.lookup key data.
Proof.
  intros Hkey. revert data.
  induction headers as [|h rest IH]; simpl; intros data H.
  - now injection H as <-.
  - destruct (header_step data h) as [d1|] eqn:E; simpl in H; try discriminate.
    rewrite (IH _ H). eapply header_step_other; eauto.
Qed.

Lemma header_step_wf (data : pydict) (h : value) :
  wf_header h = true ->
  exists data',
    header_step data h = Ok data' /\
    forall k, Dict.lookup (record_key k) data' =
              if named (header_name k) h then header_value h
              else Dict.lookup (record_key k) data.
Proof.
  destruct h as [| | | | |hd]; try discriminate. simpl.
  destruct (Dict.lookup "name" hd) as [[| | |n| |]|] eqn:En; try discriminate.
  unfold Dict.mem.
  destruct (Dict.lookup "value" hd) as [v|] eqn:Ev; try discriminate.
  intros _.
  assert (Hs : header_step data (VDict hd) =
               Ok (if String.eqb (Str.lower n) "from"
                   then Dict.set "remitente" v data
                   else if String.eqb (Str.lower n) "subject"
                   then Dict.set "asunto" v data
                   else if String.eqb (Str.lower n) "date"
                   then Dict.set "fecha_correo" v data
                   else data)).
  { unfold header_step, Py.getitem.
    rewrite En. cbn [bind Py.lower]. rewrite Ev. cbn [bind].
    repeat match goal with |- context [if ?c then _ else _] => destruct c end;
      reflexivity. }
  eexists. split; [exact Hs|]. clear Hs.
  intros k. unfold ci_eq.
  destruct (String.eqb (Str.lower n) "from") eqn:E1;
    [|destruct (String.eqb (Str.lower n) "subject") eqn:E2;
       [|destruct (String.eqb (Str.lower n) "date") eqn:E3]];
    try (apply String.eqb_eq in E1; rewrite E1);
    try (apply String.eqb_eq in E2; rewrite E2);
    try (apply String.eqb_eq in E3; rewrite E3);
    destruct k; cbn [header_name record_key];
    change (Str.lower "From") with "from";
    change (Str.lower "Subject") with "subject";
    change (Str.lower "Date") with "date";
    rewrite ?E1, ?E2, ?E3; simpl;
    rewrite ?lookup_set_eq, ?lookup_set_ne by discriminate;
    auto.
Qed.

Lemma headers_loop_wf (headers : list value) (data : pydict) :
  forallb wf_header headers = true ->
  exists data',
    headers_loop headers data = Ok data' /\
    forall k, Dict.lookup (record_key k) data' =
              match find (named (header_name k)) (rev headers) with
              | Some h => header_value h
              | None => Dict.lookup (record_key k) data
              end.
Proof.
  revert data.
  induction headers as [|h rest IH]; simpl; intros data Hwf.
  - eexists. split; [reflexivity|]. auto.
  - apply andb_prop in Hwf. destruct Hwf as [Hh Hrest].
    destruct (header_step_wf data h Hh) as [d1 [Hstep Hd1]].
    destruct (IH d1 Hrest) as [d2 [Hloop Hd2]].
    exists d2. rewrite Hstep. simpl. split; [exact Hloop|].
    intros k. rewrite Hd2, find_app. simpl.
    destruct (find (named (header_name k)) (rev rest)); auto.
    rewrite Hd1. destruct (named (header_name k) h); auto.
Qed.

(** ** parse_email on a well-formed message *)

Lemma wf_parts (msg : value) :
  well_formed msg = true ->
  match parts_of msg with
  | Some ps =>
      Dict.lookup "parts" (payload_of msg) = Some (VList ps) /\
      forallb is_dict ps = true
  | None => Dict.lookup "parts" (payload_of msg) = None
  end.
Proof.
  unfold parts_of, payload_of, well_formed.
  destruct msg as [| | | | |m]; try discriminate.
  destruct (Dict.lookup "payload" m) as [p|]; [|reflexivity].
  destruct p as [| | | | |pd]; try discriminate. simpl.
  intros H. apply andb_prop in H. destruct H as [_ H].
  destruct (Dict.lookup "parts" pd) as [[| | | |ps|]|]; try discriminate; auto.
Qed.

Lemma wf_headers (msg : value) :
  well_formed msg = true -> forallb wf_header (headers_of msg) = true.
Proof.
  unfold headers_of, payload_of, well_formed.
  destruct msg as [| | | | |m]; try discriminate.
  destruct (Dict.lookup "payload" m) as [p|]; [|reflexivity].
  destruct p as [| | | | |pd]; try discriminate. simpl.
  intros H. apply andb_prop in H. destruct H as [H _].
  destruct (Dict.lookup "headers" pd) as [[| | | |hs|]|]; try discriminate; auto.
Qed.

Lemma parse_email_wf (now : string) (msg : value) :
  well_formed msg = true ->
  carries_id msg = true ->
  exists idv data atts,
    Py.getitem msg "id" = Ok idv /\
    headers_loop (headers_of msg) [("id", idv); ("fecha_extraccion", VStr now)]
      = Ok data /\
    match parts_of msg with
    | Some ps => attachments_loop ps []
    | None => Ok []
    end = Ok atts /\
    parse_email now msg = Ok (assemble msg data (selected_text msg) atts).
Proof.
  intros Hwf Hid.
  pose proof (wf_parts msg Hwf) as Hparts.
  pose proof (wf_headers msg Hwf) as Hheaders.
  destruct (headers_loop_wf (headers_of msg)
              [("id", field_or msg "id" VNone); ("fecha_extraccion", VStr now)]
              Hheaders) as [data [Hloop _]].
  assert (Hatts : exists atts,
             match parts_of msg with
             | Some ps => attachments_loop ps []
             | None => Ok []
             end = Ok atts).
  { destruct (parts_of msg) as [ps|]; [|eauto].
    apply attachments_loop_total. tauto. }
  destruct Hatts as [atts Hatts].
  destruct msg as [| | | | |m]; try discriminate.
  unfold carries_id, Dict.mem in Hid.
  destruct (Dict.lookup "id" m) as [idv|] eqn:Eid; try discriminate.
  exists idv, data, atts.
  assert (Hidv : field_or (VDict m) "id" VNone = idv)
    by (unfold field_or; now rewrite Eid).
  rewrite Hidv in Hloop.
  split; [unfold Py.getitem; now rewrite Eid|].
  split; [exact Hloop|]. split; [exact Hatts|].
  unfold parse_email, assemble, selected_text, field_or, top_level_text.
  unfold headers_of, parts_of, payload_of, well_formed in *.
  unfold Py.contains, Dict.mem, Py.get, Py.getitem. rewrite Eid.
  destruct (Dict.lookup "snippet" m); destruct (Dict.lookup "labelIds" m);
    (destruct (Dict.lookup "payload" m) as [p|];
     [ destruct p as [| | | | |pd]; try discriminate; cbn [bind];
       simpl in Hwf; apply andb_prop in Hwf; destruct Hwf as [Hh Hp];
       destruct (Dict.lookup "headers" pd) as [[| | | |hs|]|];
       try discriminate;
       destruct (Dict.lookup "parts" pd) as [[| | | |ps|]|];
       try discriminate
     | cbn [bind Dict.lookup] in * ]);
    cbn [bind Py.iter] in *; rewrite Hloop; cbn [bind Py.iter];
    try rewrite (body_loop_find _ _ Hp);
    cbn [bind]; rewrite ?Hatts; try (injection Hatts as <-);
    try match goal with
        | |- context [decode_body ?x] => destruct (decode_body x)
        end;
    reflexivity.
Qed.

Lemma assemble_body msg data body atts :
  Dict.lookup "body" (assemble msg data body atts) = Some (VStr (Str.strip body)).
Proof.
  unfold assemble.
  rewrite !lookup_set_ne by discriminate. apply lookup_set_eq.
Qed.

Lemma assemble_adjuntos msg data body atts :
  Dict.lookup "adjuntos" (assemble msg data body atts) = Some (VList atts).
Proof. unfold assemble. apply lookup_set_eq. Qed.

Lemma assemble_snippet msg data body atts :
  Dict.lookup "snippet" (assemble msg data body atts) =
  Some (field_or msg "snippet" (VStr "")).
Proof.
  unfold assemble.
  rewrite !lookup_set_ne by discriminate. apply lookup_set_eq.
Qed.

Lemma assemble_labels msg data body atts :
  Dict.lookup "labels" (assemble msg data body atts) =
  Some (field_or msg "labelIds" (VList [])).
Proof.
  unfold assemble.
  rewrite !lookup_set_ne by discriminate. apply lookup_set_eq.
Qed.

Lemma assemble_other msg data body atts (key : string) :
  key <> "body" -> key <> "snippet" -> key <> "labels" -> key <> "adjuntos" ->
  Dict.lookup key (assemble msg data body atts) = Dict.lookup key data.
Proof.
  intros. unfold assemble. now rewrite !lookup_set_ne by assumption.
Qed.

Lemma record_key_other (key : string) :
  key = "id" \/ key = "fecha_extraccion" -> forall k, key <> record_key k.
Proof. intros [->| ->] []; discriminate. Qed.

Lemma surface_plain (p q : value) :
  surface p = surface q -> is_plain_text p = is_plain_text q.
Proof.
  unfold surface, is_plain_text.
  destruct p, q; intros H; try reflexivity;
    apply (f_equal fst) in H; cbn [fst] in H;
    first [rewrite H | rewrite <- H]; reflexivity.
Qed.

Lemma surface_decode (p q : value) :
  surface p = surface q ->
  decodes p = decodes q /\ text_of p = text_of q.
Proof.
  unfold surface, decodes, text_of, decode_body, Py.getitem.
  destruct p, q; intros H; cbn [bind]; auto;
    apply (f_equal snd) in H; cbn [snd] in H;
    first [rewrite H | rewrite <- H]; cbn [bind]; auto.
Qed.

Lemma top_level_text_surface (ps qs : list value) :
  map surface ps = map surface qs -> top_level_text ps = top_level_text qs.
Proof.
  unfold top_level_text. revert qs.
  induction ps as [|p ps IH]; intros [|q qs] H; try discriminate; auto.
  simpl in H. injection H as Hs Hrest. simpl.
  rewrite (surface_plain _ _ Hs).
  destruct (surface_decode _ _ Hs) as [-> Ht].
  destruct (is_plain_text q && decodes q); auto.
Qed.

(** The clock reaches the record through "fecha_extraccion" only. *)
Lemma parse_email_clock (now now' : string) (msg : value) (r r' : pydict) :
  well_formed msg = true ->
  carries_id msg = true ->
  parse_email now msg = Ok r ->
  parse_email now' msg = Ok r' ->
  forall key, key <> "fecha_extraccion" ->
              Dict.lookup key r' = Dict.lookup key r.
Proof.
  intros Hwf Hid Hr Hr' key Hkey.
  destruct (parse_email_wf now msg Hwf Hid)
    as (idv & data & atts & Hidv & Hloop & Hatts & Hrun).
  destruct (parse_email_wf now' msg Hwf Hid)
    as (idv' & data' & atts' & Hidv' & Hloop' & Hatts' & Hrun').
  rewrite Hrun in Hr. injection Hr as <-.
  rewrite Hrun' in Hr'. injection Hr' as <-.
  rewrite Hidv in Hidv'. injection Hidv' as <-.
  rewrite Hatts in Hatts'. injection Hatts' as <-.
  destruct (string_dec key "body") as [->|Hb];
    [now rewrite !assemble_body|].
  destruct (string_dec key "snippet") as [->|Hs];
    [now rewrite !assemble_snippet|].
  destruct (string_dec key "labels") as [->|Hl];
    [now rewrite !assemble_labels|].
  destruct (string_dec key "adjuntos") as [->|Ha];
    [now rewrite !assemble_adjuntos|].
  rewrite !assemble_other by assumption.
  destruct (headers_loop_wf (headers_of msg)
              [("id", idv); ("fecha_extraccion", VStr now)]
              (wf_headers msg Hwf)) as [d [Hd Hkeys]].
  rewrite Hloop in Hd. injection Hd as <-.
  destruct (headers_loop_wf (headers_of msg)
              [("id", idv); ("fecha_extraccion", VStr now')]
              (wf_headers msg Hwf)) as [d' [Hd' Hkeys']].
  rewrite Hloop' in Hd'. injection Hd' as <-.
  destruct (string_dec key "remitente") as [->|H1];
    [pose proof (Hkeys HFrom) as K; pose proof (Hkeys' HFrom) as K';
     cbn [record_key] in K, K'; rewrite K, K'; reflexivity|].
  destruct (string_dec key "asunto") as [->|H2];
    [pose proof (Hkeys HSubject) as K; pose proof (Hkeys' HSubject) as K';
     cbn [record_key] in K, K'; rewrite K, K'; reflexivity|].
  destruct (string_dec key "fecha_correo") as [->|H3];
    [pose proof (Hkeys HDate) as K; pose proof (Hkeys' HDate) as K';
     cbn [record_key] in K, K'; rewrite K, K'; reflexivity|].
  assert (Hother : forall k, key <> record_key k) by (intros []; assumption).
  rewrite (headers_loop_other _ _ _ key Hother Hloop).
  rewrite (headers_loop_other _ _ _ key Hother Hloop').
  cbn [Dict.lookup].
  destruct (String.eqb key "id"); [reflexivity|].
  apply String.eqb_neq in Hkey. now rewrite Hkey.
Qed.

(** ** The models on sample inputs *)

Example decode_hello :
  decode_body (VDict [("body", VDict [("data", VStr "SGVsbG8=")])]) = Ok "Hello".
Proof. reflexivity. Qed.

Example decode_without_padding :
  decode_body broken_plain_part = Raise BinasciiError.
Proof. reflexivity. Qed.

Example decode_without_data :
  decode_body empty_plain_part = Raise (KeyError (VStr "data")).
Proof. reflexivity. Qed.

Example strip_text :
  Str.strip (text_of plain_part) = "Hola mundo".
Proof. vm_compute. reflexivity. Qed.

(** The round-trip scenario of the testable properties. *)
Example round_trip_scenario :
  exists r,
    parse_email clock round_trip_msg = Ok r /\
    Dict.lookup "remitente" r = Some (VStr "a@x.com") /\
    Dict.lookup "asunto" r = Some (VStr "Hi") /\
    Dict.lookup "fecha_correo" r = Some (VStr "Mon, 1 Jan 2024") /\
    Dict.lookup "body" r = Some (VStr "Hello") /\
    Dict.lookup "adjuntos" r = Some (VList [VStr "invoice.pdf"]).
Proof. eexists. split; [vm_compute; reflexivity|]. repeat split. Qed.

(** Outside the well-formed messages [parse_email] does raise: a header
    without name, a parts field that is not a list. *)
Example header_without_name_raises :
  parse_email clock
    (message_with "m6" [("headers", VList [VDict [("value", VStr "x")]])])
  = Raise (KeyError (VStr "name")).
Proof. reflexivity. Qed.

Example parts_not_a_list_raises :
  parse_email clock (message_with "m7" [("parts", VNone)]) = Raise TypeError.
Proof. reflexivity. Qed.

(** A successful run in --last mode. *)
Example last_mode_run :
  main last_flag
    (mailbox (Ok (VDict [("messages", VList [VDict [("id", VStr "m3")]])]))
       [("m3", single_msg)])
  = ([EvTokenExists; EvReadToken; EvBuild; EvList;
      EvPrint [Lit "Ultimo correo detectado: "; Interp (VStr "m3")];
      EvGet (VStr "m3");
      EvMakedirs [Lit "/srv/despacho/data/incoming"];
      EvWrite [Lit "/srv/despacho/data/incoming"; Lit "/mail_";
               Interp (VStr "m3"); Lit ".json"]
        [("id", VStr "m3"); ("fecha_extraccion", VStr clock);
         ("body", VStr "Hola mundo"); ("snippet", VStr "Hola");
         ("labels", VList [VStr "INBOX"]); ("adjuntos", VList [])];
      EvPrint [Lit "Correo guardado: "; Lit "/srv/despacho/data/incoming";
               Lit "/mail_"; Interp (VStr "m3"); Lit ".json"];
      EvPrint [Lit "Proceso finalizado correctamente."]],
     Ok tt).
Proof. vm_compute. reflexivity. Qed.

(** * The normalisation contract *)

(** C1: when the parts list holds a part whose MIME type is exactly
    "text/plain" and that decodes, and every plain-text part declared
    before it fails to decode (malformed base64, missing body data), the
    record's body is the trimmed decoded content of that part: the parts
    before it that are not plain text are passed over, the ones that fail
    are skipped, and the scan does not abort. *)
Theorem first_plain_text_part_selected
    (now : string) (msg : value) (pre : list value) (part : value)
    (post : list value) (text : string) :
  well_formed msg = true ->
  carries_id msg = true ->
  parts_of msg = Some (pre ++ part :: post) ->
  is_plain_text part = true ->
  decode_body part = Ok text ->
  (forall p, In p pre -> is_plain_text p = true -> decodes p = false) ->
  exists r,
    parse_email now msg = Ok r /\
    Dict.lookup "body" r = Some (VStr (Str.strip text)).
Proof.
  intros Hwf Hid Hparts Hplain Htext Hpre.
  destruct (parse_email_wf now msg Hwf Hid) as (idv & data & atts & _ & _ & _ & Hrun).
  eexists. split; [exact Hrun|].
  rewrite assemble_body. unfold selected_text. rewrite Hparts.
  unfold top_level_text. rewrite find_app.
  rewrite find_none_iff.
  - cbn [find]. unfold decodes, text_of. rewrite Hplain, Htext.
    cbn [andb]. now rewrite Htext.
  - intros p Hin. specialize (Hpre p Hin).
    destruct (is_plain_text p); auto.
Qed.

Lemma first_plain_text_part_selected_witness :
  exists r,
    parse_email clock mixed_msg = Ok r /\
    Dict.lookup "body" r = Some (VStr "Hola mundo").
Proof.
  destruct (first_plain_text_part_selected clock mixed_msg
              [html_part; broken_plain_part; empty_plain_part]
              plain_part [pdf_part] (text_of plain_part))
    as [r [Hrun Hbody]]; try (vm_compute; reflexivity).
  - intros p [<-|[<-|[<-|[]]]] Hplain;
      first [vm_compute; reflexivity | vm_compute in Hplain; discriminate].
  - exists r. split; [exact Hrun|].
    rewrite Hbody. vm_compute. reflexivity.
Defined.

(** C2: [parse_email] returns a record, and raises nothing, on every
    well-formed message that carries an identifier, whichever optional
    fields are absent (payload, header list, the From, Subject and Date
    headers, parts list, body data); the record holds the identifier,
    the extraction time, the body, the snippet, the labels and the
    attachments, and it is a function of the message alone but for the
    extraction time, which is the clock reading. *)
Theorem parse_email_total (now : string) (msg : value) :
  well_formed msg = true ->
  carries_id msg = true ->
  exists r,
    parse_email now msg = Ok r /\
    Dict.lookup "id" r = Some (field_or msg "id" VNone) /\
    Dict.lookup "fecha_extraccion" r = Some (VStr now) /\
    Dict.lookup "body" r = Some (VStr (Str.strip (selected_text msg))) /\
    Dict.lookup "snippet" r = Some (field_or msg "snippet" (VStr "")) /\
    Dict.lookup "labels" r = Some (field_or msg "labelIds" (VList [])) /\
    Dict.mem "adjuntos" r = true /\
    forall now' r' key,
      parse_email now' msg = Ok r' ->
      key <> "fecha_extraccion" ->
      Dict.lookup key r' = Dict.lookup key r.
Proof.
  intros Hwf Hid.
  destruct (parse_email_wf now msg Hwf Hid)
    as (idv & data & atts & Hidv & Hloop & _ & Hrun).
  eexists. split; [exact Hrun|].
  assert (Hclock : forall now' r' key,
             parse_email now' msg = Ok r' ->
             key <> "fecha_extraccion" ->
             Dict.lookup key r' =
             Dict.lookup key (assemble msg data (selected_text msg) atts)).
  { intros now' r' key Hr' Hkey.
    exact (parse_email_clock now now' msg _ r' Hwf Hid Hrun Hr' key Hkey). }
  revert Hclock.
  rewrite assemble_body, assemble_snippet, assemble_labels.
  unfold Dict.mem. rewrite assemble_adjuntos.
  rewrite !assemble_other by discriminate.
  rewrite (headers_loop_other _ _ _ "id" (record_key_other _ (or_introl eq_refl)) Hloop).
  rewrite (headers_loop_other _ _ _ "fecha_extraccion"
             (record_key_other _ (or_intror eq_refl)) Hloop).
  destruct msg; try discriminate. unfold Py.getitem in Hidv. unfold field_or.
  destruct (Dict.lookup "id" d); try discriminate. injection Hidv as <-.
  intros Hclock. repeat split. exact Hclock.
Qed.

Lemma parse_email_total_witness :
  exists r,
    parse_email clock bare_msg = Ok r /\
    Dict.lookup "id" r = Some (VStr "m0") /\
    Dict.lookup "fecha_extraccion" r = Some (VStr clock) /\
    Dict.lookup "body" r = Some (VStr "") /\
    Dict.lookup "snippet" r = Some (VStr "") /\
    Dict.lookup "labels" r = Some (VList []) /\
    Dict.mem "adjuntos" r = true.
Proof.
  destruct (parse_email_total clock bare_msg eq_refl eq_refl)
    as (r & Hrun & Hid & Htime & Hbody & Hsnippet & Hlabels & Hatts & _).
  exists r. repeat split; assumption.
Defined.

(** C3 fails as stated: the scan stays at the top level of the parts
    list.  In [nested_msg] the only plain-text part sits inside a
    multipart/alternative part; a depth-first traversal finds it, the
    record's body is empty. *)
Lemma nested_plain_text_not_found :
  well_formed nested_msg = true /\
  carries_id nested_msg = true /\
  parts_of nested_msg <> None /\
  depth_first_body nested_msg = text_of plain_part /\
  Str.strip (depth_first_body nested_msg) = "Hola mundo" /\
  exists r,
    parse_email clock nested_msg = Ok r /\
    Dict.lookup "body" r = Some (VStr "") /\
    Dict.lookup "body" r <> Some (VStr (Str.strip (depth_first_body nested_msg))).
Proof.
  repeat split; try (vm_compute; reflexivity); try discriminate.
  eexists. split; [vm_compute; reflexivity|].
  split; [reflexivity|]. vm_compute. discriminate.
Qed.

(** C3, amended: for a message with a parts list the record's body is the
    trimmed text of the first part of that list itself that is plain text
    and decodes, the empty string when there is none; only the MIME type
    and the body of each part of the list are looked at, so whatever a
    part nests inside its own parts never reaches the body. *)
Theorem body_is_first_top_level_plain_text
    (now : string) (msg : value) (ps : list value) :
  well_formed msg = true ->
  carries_id msg = true ->
  parts_of msg = Some ps ->
  exists r,
    parse_email now msg = Ok r /\
    Dict.lookup "body" r = Some (VStr (Str.strip (top_level_text ps))) /\
    forall msg' ps' r',
      well_formed msg' = true ->
      carries_id msg' = true ->
      parts_of msg' = Some ps' ->
      map surface ps' = map surface ps ->
      parse_email now msg' = Ok r' ->
      Dict.lookup "body" r' = Dict.lookup "body" r.
Proof.
  intros Hwf Hid Hparts.
  destruct (parse_email_wf now msg Hwf Hid) as (idv & data & atts & _ & _ & _ & Hrun).
  eexists. split; [exact Hrun|].
  rewrite assemble_body. unfold selected_text. rewrite Hparts.
  split; [reflexivity|].
  intros msg' ps' r' Hwf' Hid' Hparts' Hsurf Hrun'.
  destruct (parse_email_wf now msg' Hwf' Hid')
    as (idv' & data' & atts' & _ & _ & _ & Hrun'').
  rewrite Hrun'' in Hrun'. injection Hrun' as <-.
  rewrite assemble_body. unfold selected_text. rewrite Hparts'.
  now rewrite (top_level_text_surface _ _ Hsurf).
Qed.

Lemma body_is_first_top_level_plain_text_witness :
  exists r,
    parse_email clock nested_msg = Ok r /\
    Dict.lookup "body" r = Some (VStr "") /\
    forall r', parse_email clock flat_msg = Ok r' ->
               Dict.lookup "body" r' = Dict.lookup "body" r.
Proof.
  destruct (body_is_first_top_level_plain_text clock nested_msg
              (parts_list nested_msg) eq_refl eq_refl eq_refl)
    as [r [Hrun [Hbody Hsame]]].
  exists r. split; [exact Hrun|]. split.
  - rewrite Hbody. vm_compute. reflexivity.
  - intros r'.
    apply (Hsame flat_msg (parts_list flat_msg) r'); reflexivity.
Defined.

(** C7: for a message whose payload has no parts list, [parse_email]
    decodes the top-level payload body: when the body data is valid
    URL-safe base64 the record's body is the decoded text, trimmed; when
    the decoding fails in any way the body is the empty string; in both
    cases a record is returned and nothing is raised. *)
Theorem single_part_body (now : string) (msg : value) :
  well_formed msg = true ->
  carries_id msg = true ->
  Dict.lookup "parts" (payload_of msg) = None ->
  exists r,
    parse_email now msg = Ok r /\
    (forall b d raw,
        Dict.lookup "body" (payload_of msg) = Some b ->
        Py.getitem b "data" = Ok d ->
        Base64.urlsafe_b64decode d = Ok raw ->
        Dict.lookup "body" r = Some (VStr (Str.strip (Utf8.decode_ignore raw)))) /\
    (forall e,
        decode_body (VDict (payload_of msg)) = Raise e ->
        Dict.lookup "body" r = Some (VStr "")).
Proof.
  intros Hwf Hid Hnone.
  destruct (parse_email_wf now msg Hwf Hid) as (idv & data & atts & _ & _ & _ & Hrun).
  eexists. split; [exact Hrun|].
  rewrite assemble_body. unfold selected_text, parts_of. rewrite Hnone.
  split.
  - intros b d raw Hb Hd Hraw.
    unfold decode_body, Py.getitem at 1. rewrite Hb. cbn [bind].
    rewrite Hd. cbn [bind]. rewrite Hraw. reflexivity.
  - intros e He. rewrite He. reflexivity.
Qed.

Lemma single_part_body_witness :
  (exists r,
      parse_email clock single_msg = Ok r /\
      Dict.lookup "body" r = Some (VStr "Hola mundo")) /\
  (exists r,
      parse_email clock broken_single_msg = Ok r /\
      Dict.lookup "body" r = Some (VStr "")).
Proof.
  split.
  - destruct (single_part_body clock single_msg eq_refl eq_refl eq_refl)
      as [r [Hrun [Hvalid _]]].
    exists r. split; [exact Hrun|].
    rewrite (Hvalid (VDict [("size", VInt 12); ("data", VStr "IEhvbGEgbXVuZG8K")])
               (VStr "IEhvbGEgbXVuZG8K")
               (list_ascii_of_string (text_of plain_part)));
      vm_compute; reflexivity.
  - destruct (single_part_body clock broken_single_msg eq_refl eq_refl eq_refl)
      as [r [Hrun [_ Hfail]]].
    exists r. split; [exact Hrun|].
    apply (Hfail BinasciiError). vm_compute. reflexivity.
Defined.

(** C8: when the parts list holds no part whose MIME type is
    "text/plain", the record's body is the empty string. *)
Theorem no_plain_text_empty_body (now : string) (msg : value) (ps : list value) :
  well_formed msg = true ->
  carries_id msg = true ->
  parts_of msg = Some ps ->
  (forall p, In p ps -> is_plain_text p = false) ->
  exists r,
    parse_email now msg = Ok r /\
    Dict.lookup "body" r = Some (VStr "").
Proof.
  intros Hwf Hid Hparts Hnone.
  destruct (parse_email_wf now msg Hwf Hid) as (idv & data & atts & _ & _ & _ & Hrun).
  eexists. split; [exact Hrun|].
  rewrite assemble_body. unfold selected_text. rewrite Hparts.
  unfold top_level_text. rewrite find_none_iff; [reflexivity|].
  intros p Hin. now rewrite (Hnone p Hin).
Qed.

Lemma no_plain_text_empty_body_witness :
  exists r,
    parse_email clock nested_msg = Ok r /\
    Dict.lookup "body" r = Some (VStr "").
Proof.
  apply (no_plain_text_empty_body clock nested_msg (parts_list nested_msg));
    try reflexivity.
  intros p [<-|[<-|[]]]; reflexivity.
Defined.

(** C9: the record's attachments are the file names, in the order of the
    parts list, of the parts that declare a non-empty file name, whatever
    their MIME type; a part without file name or with an empty one adds
    nothing, only names are listed, and a message without parts list has
    no attachments. *)
Theorem attachments_are_declared_filenames (now : string) (msg : value) :
  well_formed msg = true ->
  carries_id msg = true ->
  forallb filename_typed (parts_list msg) = true ->
  exists r,
    parse_email now msg = Ok r /\
    Dict.lookup "adjuntos" r =
      Some (VList (map VStr (flat_map declared_filename (parts_list msg)))) /\
    (parts_of msg = None -> Dict.lookup "adjuntos" r = Some (VList [])).
Proof.
  intros Hwf Hid Htyped.
  destruct (parse_email_wf now msg Hwf Hid)
    as (idv & data & atts & _ & _ & Hatts & Hrun).
  eexists. split; [exact Hrun|].
  rewrite assemble_adjuntos. unfold parts_list in *.
  destruct (parts_of msg) as [ps|].
  - rewrite (attachments_loop_filenames ps [] Htyped) in Hatts.
    injection Hatts as <-. split; [reflexivity|discriminate].
  - injection Hatts as <-. split; reflexivity.
Qed.

Lemma attachments_are_declared_filenames_witness :
  (exists r,
      parse_email clock round_trip_msg = Ok r /\
      Dict.lookup "adjuntos" r = Some (VList [VStr "invoice.pdf"])) /\
  (exists r,
      parse_email clock single_msg = Ok r /\
      Dict.lookup "adjuntos" r = Some (VList [])).
Proof.
  split.
  - destruct (attachments_are_declared_filenames clock round_trip_msg
                eq_refl eq_refl eq_refl) as [r [Hrun [Hatts _]]].
    exists r. split; [exact Hrun|exact Hatts].
  - destruct (attachments_are_declared_filenames clock single_msg
                eq_refl eq_refl eq_refl) as [r [Hrun [_ Hnone]]].
    exists r. split; [exact Hrun|exact (Hnone eq_refl)].
Defined.

(** C10: header names are matched without regard to case; for each of
    From, Subject and Date the record holds, under remitente, asunto and
    fecha_correo, the value of the last header of the list whose name
    equals it up to case, and the key is absent from the record when the
    list has no such header. *)
Theorem last_matching_header_wins (now : string) (msg : value) :
  well_formed msg = true ->
  carries_id msg = true ->
  exists r,
    parse_email now msg = Ok r /\
    forall k,
      Dict.lookup (record_key k) r = last_header (header_name k) (headers_of msg) /\
      ((forall h, In h (headers_of msg) -> named (header_name k) h = false) ->
       Dict.mem (record_key k) r = false).
Proof.
  intros Hwf Hid.
  destruct (parse_email_wf now msg Hwf Hid)
    as (idv & data & atts & _ & Hloop & _ & Hrun).
  eexists. split; [exact Hrun|].
  destruct (headers_loop_wf (headers_of msg)
              [("id", idv); ("fecha_extraccion", VStr now)]
              (wf_headers msg Hwf)) as [data' [Hloop' Hkeys]].
  rewrite Hloop in Hloop'. injection Hloop' as <-.
  intros k.
  assert (Hk : Dict.lookup (record_key k) (assemble msg data (selected_text msg) atts)
               = last_header (header_name k) (headers_of msg)).
  { rewrite assemble_other by (destruct k; discriminate).
    rewrite Hkeys. unfold last_header.
    destruct (find (named (header_name k)) (rev (headers_of msg))); auto.
    destruct k; reflexivity. }
  split; [exact Hk|].
  intros Hnone. unfold Dict.mem. rewrite Hk. unfold last_header.
  rewrite find_none_iff; [reflexivity|].
  intros h Hin. apply Hnone. now apply in_rev.
Qed.

Lemma last_matching_header_wins_witness :
  exists r,
    parse_email clock mixed_msg = Ok r /\
    Dict.lookup "remitente" r = Some (VStr "dos@x.com") /\
    Dict.lookup "asunto" r = Some (VStr "Factura") /\
    Dict.mem "fecha_correo" r = false.
Proof.
  destruct (last_matching_header_wins clock mixed_msg eq_refl eq_refl)
    as [r [Hrun Hkeys]].
  exists r. split; [exact Hrun|].
  split; [exact (proj1 (Hkeys HFrom))|].
  split; [exact (proj1 (Hkeys HSubject))|].
  apply (proj2 (Hkeys HDate)).
  intros h [<-|[<-|[<-|[]]]]; reflexivity.
Defined.

(** * The entry point *)

(** ** The record's identifier *)

Lemma parse_email_id (now : string) (msg : value) (r : pydict) :
  parse_email now msg = Ok r ->
  exists v, Py.getitem msg "id" = Ok v /\ Dict.lookup "id" r = Some v.
Proof.
  unfold parse_email. intros H. bind_inv H.
  injection H as <-.
  match goal with
  | Hid : Py.getitem msg "id" = Ok ?v |- _ => exists v; split; [reflexivity|]
  end.
  rewrite !lookup_set_ne by discriminate.
  match goal with
  | Hl : headers_loop _ _ = Ok _ |- _ =>
      rewrite (headers_loop_other _ _ _ "id"
                 (record_key_other _ (or_introl eq_refl)) Hl)
  end.
  reflexivity.
Qed.

Lemma parse_email_without_id (now : string) (msg : value) :
  well_formed msg = true ->
  carries_id msg = false ->
  parse_email now msg = Raise (KeyError (VStr "id")).
Proof.
  unfold well_formed, carries_id, Dict.mem, parse_email.
  destruct msg as [| | | | |m]; try discriminate.
  unfold Py.get at 1. unfold Py.getitem at 1.
  destruct (Dict.lookup "id" m); try discriminate.
  destruct (Dict.lookup "payload" m) as [p|]; cbn [bind]; [|reflexivity].
  destruct p as [| | | | |pd]; try discriminate.
  unfold Py.get at 1.
  destruct (Dict.lookup "headers" pd); reflexivity.
Qed.

(** ** Runs of main *)

Lemma save_email_json_run (data : pydict) (w : env) :
  save_email_json data w =
  ([EvMakedirs (DATA_DIR w);
    EvWrite (mail_path w data) data;
    EvPrint (Lit "Correo guardado: " :: mail_path w data)],
   Ok (mail_path w data)).
Proof. reflexivity. Qed.

Lemma get_gmail_service_cases (w : env) :
  get_gmail_service w =
  if token_exists w then
    match from_authorized_user_file w with
    | Ok _ =>
        match build w with
        | Ok _ => ([EvTokenExists; EvReadToken; EvBuild], Ok tt)
        | Raise e => ([EvTokenExists; EvReadToken; EvBuild], Raise e)
        end
    | Raise e => ([EvTokenExists; EvReadToken], Raise e)
    end
  else ([EvTokenExists], Raise FileNotFoundError).
Proof.
  unfold get_gmail_service, load_credentials, pbind, emit, ask, lift, raise.
  destruct (token_exists w); [|reflexivity].
  destruct (from_authorized_user_file w) as [[]|]; [|reflexivity].
  destruct (build w) as [[]|]; reflexivity.
Qed.

Lemma get_gmail_service_calm (w : env) :
  forallb (fun e => calm e && negb (is_list_call e)) (fst (get_gmail_service w))
  = true.
Proof.
  rewrite get_gmail_service_cases.
  destruct (token_exists w); [|reflexivity].
  destruct (from_authorized_user_file w); [|reflexivity].
  destruct (build w); reflexivity.
Qed.

Lemma fetch_last_email_calm (w : env) :
  forallb calm (fst (fetch_last_email w)) = true.
Proof.
  unfold fetch_last_email, pbind, emit, ask, lift, print, ret.
  destruct (messages_list w) as [results|]; [|reflexivity].
  destruct (Py.get results "messages" (VList [])) as [messages|]; [|reflexivity].
  destruct (Py.truthy messages); cbn [negb].
  - destruct (m <- Py.first messages;; Py.getitem m "id"); reflexivity.
  - reflexivity.
Qed.

Lemma select_mode_calm (args : Namespace) (w : env) :
  forallb calm (fst (select_mode args w)) = true.
Proof.
  unfold select_mode.
  destruct (id_given args); [reflexivity|].
  destruct (last args); [|reflexivity].
  unfold pbind. pose proof (fetch_last_email_calm w) as H.
  destruct (fetch_last_email w) as [t [msg_id|e]]; cbn [fst] in *.
  - destruct (Py.truthy msg_id); cbn [negb]; unfold ret, print, emit, pbind;
      cbn [fst]; rewrite forallb_app, H; reflexivity.
  - exact H.
Qed.

Lemma prelude_calm (args : Namespace) (w : env) :
  forallb calm (fst (prelude args w)) = true.
Proof.
  unfold prelude, pbind.
  pose proof (get_gmail_service_calm w) as Hs.
  pose proof (select_mode_calm args w) as Hm.
  destruct (get_gmail_service w) as [t [[]|e]]; cbn [fst] in *.
  - destruct (select_mode args w) as [t' r]. cbn [fst] in *.
    rewrite forallb_app, Hm, andb_true_r.
    rewrite forallb_forall in Hs |- *. intros e' Hin.
    specialize (Hs e' Hin). now apply andb_prop in Hs.
  - rewrite forallb_forall in Hs |- *. intros e' Hin.
    specialize (Hs e' Hin). now apply andb_prop in Hs.
Qed.

Lemma main_run (args : Namespace) (w : env) :
  main args w =
  match prelude args w with
  | (t, Raise e) => (t, Raise e)
  | (t, Ok None) => (t, Ok tt)
  | (t, Ok (Some msg_id)) =>
      match messages_get w msg_id with
      | Raise e => (t ++ [EvGet msg_id], Raise e)
      | Ok msg =>
          match parse_email (now_isoformat w) msg with
          | Raise e => (t ++ [EvGet msg_id], Raise e)
          | Ok parsed =>
              (t ++ [EvGet msg_id;
                     EvMakedirs (DATA_DIR w);
                     EvWrite (mail_path w parsed) parsed;
                     EvPrint (Lit "Correo guardado: " :: mail_path w parsed);
                     EvPrint [Lit "Proceso finalizado correctamente."]],
               Ok tt)
          end
      end
  end.
Proof.
  unfold main, prelude, pbind.
  destruct (get_gmail_service w) as [t [[]|e]]; [|reflexivity].
  destruct (select_mode args w) as [t' [[msg_id|]|e]].
  - unfold fetch_email_by_id, pbind, emit, ask, lift.
    destruct (messages_get w msg_id) as [msg|e]; cbn [app].
    + destruct (parse_email (now_isoformat w) msg) as [parsed|e]; cbn [app].
      * rewrite save_email_json_run. unfold print, emit. cbn [app].
        now rewrite app_assoc.
      * now rewrite app_assoc.
    + now rewrite app_assoc.
  - unfold ret. now rewrite app_nil_r.
  - reflexivity.
Qed.

Lemma calm_no_write (t : list event) (path : fstring) (content : pydict) :
  forallb calm t = true -> ~ In (EvWrite path content) t.
Proof.
  intros H Hin. rewrite forallb_forall in H.
  specialize (H _ Hin). discriminate.
Qed.

Lemma calm_existsb (t : list event) :
  forallb calm t = true ->
  existsb is_fetch_by_id t = false /\ existsb is_write t = false.
Proof.
  induction t as [|e t IH]; simpl; intros H; auto.
  apply andb_prop in H. destruct H as [He Ht].
  destruct (IH Ht) as [-> ->].
  unfold calm in He. apply negb_true_iff, orb_false_elim in He.
  destruct He as [-> ->]. auto.
Qed.

(** C4 fails as stated: for a message without "id", [parse_email] raises
    [KeyError] and [main] stops there, after the fetch; no record is
    produced and no file written, with or without a placeholder. *)
Lemma missing_id_yields_no_record :
  well_formed no_id_msg = true /\
  carries_id no_id_msg = false /\
  parse_email clock no_id_msg = Raise (KeyError (VStr "id")) /\
  main (id_flag "x9") (mailbox (Raise (HttpError 500)) [("x9", no_id_msg)]) =
    ([EvTokenExists; EvReadToken; EvBuild;
      EvPrint [Lit "Leyendo correo con ID: "; Interp (VStr "x9")];
      EvGet (VStr "x9")],
     Raise (KeyError (VStr "id"))).
Proof. repeat split; vm_compute; reflexivity. Qed.

(** C4, amended: the record's id is never synthesized.  Every record
    [parse_email] returns holds the message's own "id"; on a well-formed
    message without "id" it raises [KeyError]; every file [main] writes
    holds the record parsed from a fetched message, with that message's
    identifier as id and in the file name; the placeholder of
    [save_email_json] names the file of a record handed to it without id
    and leaves the record as it is. *)
Theorem record_id_never_synthesized :
  (forall now msg r,
      parse_email now msg = Ok r ->
      exists v, Py.getitem msg "id" = Ok v /\ Dict.lookup "id" r = Some v) /\
  (forall now msg,
      well_formed msg = true ->
      carries_id msg = false ->
      parse_email now msg = Raise (KeyError (VStr "id"))) /\
  (forall args w path content,
      In (EvWrite path content) (fst (main args w)) ->
      exists msg_id msg v,
        messages_get w msg_id = Ok msg /\
        parse_email (now_isoformat w) msg = Ok content /\
        Py.getitem msg "id" = Ok v /\
        Dict.lookup "id" content = Some v /\
        path = DATA_DIR w ++ [Lit "/mail_"; Interp v; Lit ".json"]) /\
  (forall data w,
      Dict.lookup "id" data = None ->
      save_email_json data w =
      (let path := DATA_DIR w ++
                   [Lit "/mail_"; Interp (VStr ("sin_id_" ++ now_timestamp w));
                    Lit ".json"] in
       ([EvMakedirs (DATA_DIR w); EvWrite path data;
         EvPrint (Lit "Correo guardado: " :: path)], Ok path))).
Proof.
  split; [exact parse_email_id|].
  split; [exact parse_email_without_id|].
  split.
  - intros args w path content. rewrite main_run.
    pose proof (prelude_calm args w) as Hcalm.
    destruct (prelude args w) as [t [[msg_id|]|e]]; cbn [fst] in *;
      try (intros Hin; now apply calm_no_write in Hin).
    destruct (messages_get w msg_id) as [msg|e] eqn:Eget; cbn [fst].
    + destruct (parse_email (now_isoformat w) msg) as [parsed|e] eqn:Eparse;
        cbn [fst]; intros Hin; apply in_app_or in Hin;
        destruct Hin as [Hin|Hin]; try (now apply calm_no_write in Hin).
      * destruct Hin as [H|[H|[H|[H|[H|[]]]]]]; try discriminate.
        injection H as <- <-.
        destruct (parse_email_id _ _ _ Eparse) as [v [Hv Hid]].
        exists msg_id, msg, v. repeat split; auto.
        unfold mail_path. now rewrite Hid.
      * destruct Hin as [H|[]]; discriminate.
    + intros Hin. apply in_app_or in Hin.
      destruct Hin as [Hin|[H|[]]]; [now apply calm_no_write in Hin|discriminate].
  - intros data w Hnone. rewrite save_email_json_run.
    unfold mail_path. now rewrite Hnone.
Qed.

Lemma record_id_never_synthesized_witness :
  (exists v, Py.getitem round_trip_msg "id" = Ok v /\ v = VStr "18c2f0a1b2c3d4e5") /\
  parse_email clock no_id_msg = Raise (KeyError (VStr "id")) /\
  (forall path content,
      In (EvWrite path content)
         (fst (main (id_flag "m1") (mailbox (Raise (HttpError 500)) [("m1", mixed_msg)]))) ->
      Dict.lookup "id" content = Some (VStr "m1")) /\
  fst (save_email_json [("body", VStr "Hola")] empty_mailbox) =
    [EvMakedirs [Lit "/srv/despacho/data/incoming"];
     EvWrite [Lit "/srv/despacho/data/incoming"; Lit "/mail_";
              Interp (VStr "sin_id_1759305600.0"); Lit ".json"]
             [("body", VStr "Hola")];
     EvPrint [Lit "Correo guardado: "; Lit "/srv/despacho/data/incoming";
              Lit "/mail_"; Interp (VStr "sin_id_1759305600.0"); Lit ".json"]].
Proof.
  destruct record_id_never_synthesized as [Hparse [Hraise [Hmain Hsave]]].
  split; [|split; [|split]].
  - destruct (Hparse clock round_trip_msg _ eq_refl) as [v [Hv _]].
    exists v. split; [exact Hv|]. vm_compute in Hv. now injection Hv as <-.
  - apply Hraise; reflexivity.
  - intros path content Hin.
    destruct (Hmain _ _ _ _ Hin) as (msg_id & msg & v & Hget & _ & Hv & Hid & _).
    rewrite Hid. f_equal.
    cbn [mailbox messages_get] in Hget.
    destruct msg_id; try discriminate.
    destruct (Dict.lookup s [("m1", mixed_msg)]) as [m|] eqn:E; try discriminate.
    injection Hget as <-. cbn in E.
    destruct (String.eqb s "m1"); try discriminate.
    injection E as <-. vm_compute in Hv. now injection Hv as <-.
  - rewrite (Hsave [("body", VStr "Hola")] empty_mailbox eq_refl). reflexivity.
Defined.

(** C5 fails as stated: [main] loads the credentials and builds the
    client before it looks at the mode.  Without a token file and with
    neither flag the run ends in [FileNotFoundError] and the usage notice
    is never printed; with a token file the token is read and the client
    built before the notice. *)
Lemma usage_notice_needs_credentials :
  id neither_flag = None /\ last neither_flag = false /\
  main neither_flag (unauthorized empty_mailbox) =
    ([EvTokenExists], Raise FileNotFoundError) /\
  main neither_flag empty_mailbox =
    ([EvTokenExists; EvReadToken; EvBuild; usage_notice], Ok tt).
Proof. repeat split. Qed.

(** C5, amended: with neither --last nor --id, [main] first checks and
    loads the credentials and builds the client; when that raises, [main]
    raises the same exception and prints no usage notice; otherwise the
    usage notice is printed next and [main] returns without error.
    Either way the provider is not asked for a listing or a message and
    no file is written. *)
Theorem usage_notice_after_client (args : Namespace) (w : env) :
  id_given args = None ->
  last args = false ->
  main args w =
    match get_gmail_service w with
    | (t, Ok _) => (t ++ [usage_notice], Ok tt)
    | (t, Raise e) => (t, Raise e)
    end /\
  hd_error (fst (main args w)) = Some EvTokenExists /\
  existsb is_list_call (fst (main args w)) = false /\
  existsb is_fetch_by_id (fst (main args w)) = false /\
  existsb is_write (fst (main args w)) = false.
Proof.
  intros Hid Hlast.
  assert (Hmain : main args w =
                  match get_gmail_service w with
                  | (t, Ok _) => (t ++ [usage_notice], Ok tt)
                  | (t, Raise e) => (t, Raise e)
                  end).
  { unfold main, select_mode, pbind. rewrite Hid, Hlast.
    destruct (get_gmail_service w) as [t [[]|e]]; reflexivity. }
  split; [exact Hmain|]. rewrite Hmain. clear Hmain.
  rewrite get_gmail_service_cases.
  destruct (token_exists w); [|repeat split].
  destruct (from_authorized_user_file w); [|repeat split].
  destruct (build w); repeat split.
Qed.

Lemma usage_notice_after_client_witness :
  main neither_flag empty_mailbox =
    ([EvTokenExists; EvReadToken; EvBuild; usage_notice], Ok tt) /\
  existsb is_fetch_by_id (fst (main neither_flag empty_mailbox)) = false.
Proof.
  destruct (usage_notice_after_client neither_flag empty_mailbox eq_refl eq_refl)
    as [Hmain [_ [_ [Hfetch _]]]].
  split; [exact Hmain|exact Hfetch].
Defined.

(** C6: in --last mode, when the client is available and the listing
    holds no message, [fetch_last_email] returns [None] without raising,
    and [main] returns without error after the notice: no message is
    fetched by identifier and no file is written. *)
Theorem empty_inbox_is_a_no_op
    (args : Namespace) (w : env) (t0 : list event) (results : value) :
  id_given args = None ->
  last args = true ->
  get_gmail_service w = (t0, Ok tt) ->
  messages_list w = Ok results ->
  no_messages results = true ->
  fetch_last_email w = ([EvList; no_mail_notice], Ok VNone) /\
  main args w = (t0 ++ [EvList; no_mail_notice], Ok tt) /\
  existsb is_fetch_by_id (fst (main args w)) = false /\
  existsb is_write (fst (main args w)) = false.
Proof.
  intros Hid Hlast Hservice Hlist Hempty.
  assert (Hfetch : fetch_last_email w = ([EvList; no_mail_notice], Ok VNone)).
  { unfold fetch_last_email, pbind, emit, ask, lift, print, ret.
    rewrite Hlist. destruct results as [| | | | |d]; try discriminate.
    unfold no_messages in Hempty. unfold Py.get.
    destruct (Dict.lookup "messages" d) as [[| | | |[|m ms]|]|];
      try discriminate; reflexivity. }
  assert (Hmain : main args w = (t0 ++ [EvList; no_mail_notice], Ok tt)).
  { unfold main, select_mode, pbind. rewrite Hservice, Hid, Hlast, Hfetch.
    reflexivity. }
  split; [exact Hfetch|]. split; [exact Hmain|].
  rewrite Hmain. cbn [fst]. rewrite !existsb_app.
  pose proof (get_gmail_service_calm w) as Hcalm.
  rewrite Hservice in Hcalm. cbn [fst] in Hcalm.
  assert (Hc : forallb calm t0 = true).
  { rewrite forallb_forall in Hcalm |- *. intros e Hin.
    specialize (Hcalm e Hin). now apply andb_prop in Hcalm. }
  destruct (calm_existsb t0 Hc) as [-> ->]. split; reflexivity.
Qed.

Lemma empty_inbox_is_a_no_op_witness :
  fetch_last_email empty_mailbox = ([EvList; no_mail_notice], Ok VNone) /\
  main last_flag empty_mailbox =
    ([EvTokenExists; EvReadToken; EvBuild; EvList; no_mail_notice], Ok tt) /\
  existsb is_fetch_by_id (fst (main last_flag empty_mailbox)) = false /\
  existsb is_write (fst (main last_flag empty_mailbox)) = false.
Proof.
  exact (empty_inbox_is_a_no_op last_flag empty_mailbox
           [EvTokenExists; EvReadToken; EvBuild]
           (VDict [("resultSizeEstimate", VInt 0)])
           eq_refl eq_refl eq_refl eq_refl eq_refl).
Defined.

(** * Further properties of the entry point *)

Lemma id_given_not_empty (args : Namespace) (s : string) :
  id_given args = Some s -> String.eqb s EmptyString = false.
Proof.
  unfold id_given. destruct (id args) as [s'|]; try discriminate.
  destruct (String.eqb s' EmptyString) eqn:E; try discriminate.
  now intros [= <-].
Qed.

Lemma prelude_id_mode (args : Namespace) (w : env) (s : string) :
  id_given args = Some s ->
  prelude args w =
  match get_gmail_service w with
  | (t, Ok _) => (t ++ [reading_notice s], Ok (Some (VStr s)))
  | (t, Raise e) => (t, Raise e)
  end.
Proof.
  intros Hid. unfold prelude, select_mode, pbind. rewrite Hid.
  destruct (get_gmail_service w) as [t [[]|e]]; reflexivity.
Qed.

Lemma service_no_listing (w : env) (t : list event) (r : result unit) :
  get_gmail_service w = (t, r) ->
  existsb is_list_call t = false /\
  existsb is_fetch_by_id t = false /\
  existsb is_write t = false.
Proof.
  rewrite get_gmail_service_cases.
  destruct (token_exists w);
    [destruct (from_authorized_user_file w);
     [destruct (build w)|]|];
    intros [= <- <-]; repeat split.
Qed.

(** X1: the token file is looked for before anything else; when it is absent
    [get_gmail_service] raises [FileNotFoundError] without reading a
    token or building a client, and [main] ends there in every mode. *)
Theorem missing_token_stops_every_mode (args : Namespace) (w : env) :
  token_exists w = false ->
  get_gmail_service w = ([EvTokenExists], Raise FileNotFoundError) /\
  main args w = ([EvTokenExists], Raise FileNotFoundError).
Proof.
  intros Htoken.
  assert (Hs : get_gmail_service w = ([EvTokenExists], Raise FileNotFoundError))
    by (rewrite get_gmail_service_cases, Htoken; reflexivity).
  split; [exact Hs|].
  unfold main, pbind. now rewrite Hs.
Qed.

Lemma missing_token_stops_every_mode_witness :
  main (id_flag "m1") (unauthorized (mailbox (Raise (HttpError 500)) [("m1", mixed_msg)]))
  = ([EvTokenExists], Raise FileNotFoundError).
Proof.
  exact (proj2 (missing_token_stops_every_mode (id_flag "m1")
                  (unauthorized (mailbox (Raise (HttpError 500)) [("m1", mixed_msg)]))
                  eq_refl)).
Defined.

(** X2: whatever exception the loading of the credentials or the building of
    the client raises, [main] raises it in every mode, with the trace of
    [get_gmail_service] and nothing more: no listing, no fetch, no
    write, no notice. *)
Theorem client_failure_stops_main
    (args : Namespace) (w : env) (t : list event) (e : exn) :
  get_gmail_service w = (t, Raise e) ->
  main args w = (t, Raise e) /\
  existsb is_list_call t = false /\
  existsb is_fetch_by_id t = false /\
  existsb is_write t = false.
Proof.
  intros Hs. split.
  - unfold main, pbind. now rewrite Hs.
  - exact (service_no_listing w t _ Hs).
Qed.

Lemma client_failure_stops_main_witness :
  main last_flag (broken_client empty_mailbox) =
  ([EvTokenExists; EvReadToken; EvBuild], Raise (HttpError 503)).
Proof.
  exact (proj1 (client_failure_stops_main last_flag (broken_client empty_mailbox)
                  [EvTokenExists; EvReadToken; EvBuild] (HttpError 503) eq_refl)).
Defined.

(** X3: with a non-empty --id the listing is never asked for and --last is
    ignored: the run is the one of --id alone, and the only message
    asked of the provider is the one with the identifier given. *)
Theorem id_mode_skips_listing (args : Namespace) (w : env) (s : string) :
  id_given args = Some s ->
  main args w = main (id_flag s) w /\
  existsb is_list_call (fst (main args w)) = false /\
  forall msg_id, In (EvGet msg_id) (fst (main args w)) -> msg_id = VStr s.
Proof.
  intros Hid.
  assert (Hs : id_given (id_flag s) = Some s).
  { unfold id_given, id_flag. cbn [id].
    now rewrite (id_given_not_empty args s Hid). }
  split; [unfold main, select_mode; now rewrite Hid, Hs|].
  rewrite main_run, (prelude_id_mode args w s Hid).
  destruct (get_gmail_service w) as [t r] eqn:Hsvc.
  destruct (service_no_listing w t r Hsvc) as [Hl [Hf _]].
  assert (Hget : forall msg_id, ~ In (EvGet msg_id) t).
  { intros msg_id Hin.
    assert (existsb is_fetch_by_id t = true)
      by (apply existsb_exists; exists (EvGet msg_id); auto).
    congruence. }
  destruct r as [[]|e]; cbn [fst]; [|split; [exact Hl|intros m Hin; now apply Hget in Hin]].
  destruct (messages_get w (VStr s)) as [msg|e];
    [destruct (parse_email (now_isoformat w) msg) as [parsed|e]|];
    cbn [fst]; rewrite !existsb_app, Hl; (split; [reflexivity|]);
    intros m Hin; repeat (apply in_app_or in Hin; destruct Hin as [Hin|Hin]);
    try (now apply Hget in Hin);
    cbn [In] in Hin;
    repeat (destruct Hin as [Hin|Hin]; try discriminate; try (now injection Hin as <-));
    contradiction.
Qed.

Lemma id_mode_skips_listing_witness :
  main {| last := true; id := Some "m3" |}
       (mailbox (Raise (HttpError 500)) [("m3", single_msg)])
  = main (id_flag "m3") (mailbox (Raise (HttpError 500)) [("m3", single_msg)]) /\
  existsb is_list_call
    (fst (main {| last := true; id := Some "m3" |}
               (mailbox (Raise (HttpError 500)) [("m3", single_msg)]))) = false.
Proof.
  destruct (id_mode_skips_listing {| last := true; id := Some "m3" |}
              (mailbox (Raise (HttpError 500)) [("m3", single_msg)]) "m3" eq_refl)
    as [Hsame [Hlist _]].
  split; [exact Hsame|exact Hlist].
Defined.

(** X4: an empty --id counts as no --id: the run is the one of the same
    command line without it. *)
Theorem empty_id_is_no_id (args : Namespace) (w : env) :
  id args = Some EmptyString ->
  main args w = main {| last := last args; id := None |} w.
Proof.
  intros Hid. unfold main, select_mode, id_given. rewrite Hid. reflexivity.
Qed.

Lemma empty_id_is_no_id_witness :
  main {| last := false; id := Some "" |} empty_mailbox =
  ([EvTokenExists; EvReadToken; EvBuild; usage_notice], Ok tt).
Proof.
  rewrite (empty_id_is_no_id {| last := false; id := Some "" |} empty_mailbox eq_refl).
  reflexivity.
Defined.


Lemma filter_none {A} (p : A -> bool) (l : list A) :
  existsb p l = false -> filter p l = [].
Proof.
  induction l as [|x l IH]; simpl; auto.
  destruct (p x); simpl; [discriminate|auto].
Qed.

Lemma select_mode_lists_once (args : Namespace) (w : env) :
  length (filter is_list_call (fst (select_mode args w))) <= 1.
Proof.
  unfold select_mode.
  destruct (id_given args); [cbn; auto|].
  destruct (last args); [|cbn; auto].
  unfold fetch_last_email, pbind, emit, ask, lift, print, ret.
  destruct (messages_list w) as [results|]; [|cbn; auto].
  destruct (Py.get results "messages" (VList [])) as [messages|]; [|cbn; auto].
  destruct (Py.truthy messages); cbn [negb]; [|cbn; auto].
  destruct (m <- Py.first messages;; Py.getitem m "id") as [msg_id|];
    [|cbn; auto].
  destruct (Py.truthy msg_id); cbn; auto.
Qed.

(** X6: a run asks the provider for at most one listing and at most one
    message, and writes at most one file. *)
Theorem main_at_most_once (args : Namespace) (w : env) :
  length (filter is_list_call (fst (main args w))) <= 1 /\
  length (filter is_fetch_by_id (fst (main args w))) <= 1 /\
  length (filter is_file_write (fst (main args w))) <= 1.
Proof.
  assert (Hlist : length (filter is_list_call (fst (prelude args w))) <= 1).
  { unfold prelude, pbind.
    destruct (get_gmail_service w) as [t r] eqn:Hsvc.
    destruct (service_no_listing w t r Hsvc) as [Hl _].
    destruct r as [[]|e]; cbn [fst].
    - pose proof (select_mode_lists_once args w) as H.
      destruct (select_mode args w) as [t' r']. cbn [fst] in *.
      now rewrite filter_app, (filter_none _ _ Hl).
    - rewrite (filter_none _ _ Hl). cbn. auto. }
  pose proof (prelude_calm args w) as Hcalm.
  rewrite main_run.
  destruct (prelude args w) as [t r]; cbn [fst] in *.
  destruct (calm_existsb t Hcalm) as [Hf Hw].
  assert (Hfw : existsb is_file_write t = false).
  { apply not_true_is_false. intros H. apply existsb_exists in H.
    destruct H as [ev [Hin Hev]]. destruct ev; try discriminate.
    now apply calm_no_write in Hin. }
  destruct r as [[msg_id|]|e]; cbn [fst];
    try (rewrite (filter_none _ _ Hf), (filter_none _ _ Hfw);
         cbn; auto).
  destruct (messages_get w msg_id) as [msg|e];
    [destruct (parse_email (now_isoformat w) msg) as [parsed|e]|];
    cbn [fst]; rewrite !filter_app, (filter_none _ _ Hf), (filter_none _ _ Hfw);
    cbn; rewrite app_nil_r; auto.
Qed.



(** X8: in --last mode only the first entry of the listing counts: its "id"
    is what [fetch_last_email] returns, whatever follows it, and [main]
    announces and fetches that identifier; when the identifier is falsy
    (an empty string) [main] returns at once, without notice, fetch or
    write. *)
Theorem last_mode_takes_first_listed
    (args : Namespace) (w : env) (t0 : list event)
    (d : pydict) (m : value) (ms : list value) (v : value) :
  id_given args = None ->
  last args = true ->
  get_gmail_service w = (t0, Ok tt) ->
  messages_list w = Ok (VDict d) ->
  Dict.lookup "messages" d = Some (VList (m :: ms)) ->
  Py.getitem m "id" = Ok v ->
  fetch_last_email w = ([EvList], Ok v) /\
  if Py.truthy v
  then exists rest r,
         main args w =
         (t0 ++ EvList :: detected_notice v :: EvGet v :: rest, r)
  else main args w = (t0 ++ [EvList], Ok tt).
Proof.
  intros Hid Hlast Hsvc Hlist Hmsgs Hv.
  assert (Hfetch : fetch_last_email w = ([EvList], Ok v)).
  { unfold fetch_last_email, pbind, emit, ask, lift, print, ret.
    rewrite Hlist. unfold Py.get. rewrite Hmsgs.
    cbn [Py.truthy negb Py.first bind]. now rewrite Hv. }
  split; [exact Hfetch|].
  assert (Hpre : prelude args w =
                 if Py.truthy v
                 then (t0 ++ [EvList; detected_notice v], Ok (Some v))
                 else (t0 ++ [EvList], Ok None)).
  { unfold prelude, select_mode, pbind. rewrite Hsvc, Hid, Hlast, Hfetch.
    destruct (Py.truthy v); reflexivity. }
  rewrite main_run, Hpre.
  destruct (Py.truthy v); [|reflexivity].
  destruct (messages_get w v) as [msg|e];
    [destruct (parse_email (now_isoformat w) msg) as [parsed|e]|];
    eexists; eexists; rewrite <- app_assoc; reflexivity.
Qed.

Lemma last_mode_takes_first_listed_witness :
  fetch_last_email (mailbox (Ok two_listed) [("m3", single_msg); ("m1", mixed_msg)])
  = ([EvList], Ok (VStr "m3")).
Proof.
  exact (proj1 (last_mode_takes_first_listed last_flag
                  (mailbox (Ok two_listed) [("m3", single_msg); ("m1", mixed_msg)])
                  [EvTokenExists; EvReadToken; EvBuild]
                  [("messages", VList [VDict [("id", VStr "m3"); ("threadId", VStr "m3")];
                                       VDict [("id", VStr "m1"); ("threadId", VStr "m1")]]);
                   ("resultSizeEstimate", VInt 2)]
                  (VDict [("id", VStr "m3"); ("threadId", VStr "m3")])
                  [VDict [("id", VStr "m1"); ("threadId", VStr "m1")]]
                  (VStr "m3")
                  eq_refl eq_refl eq_refl eq_refl eq_refl eq_refl)).
Defined.

(** * Further properties of parse_email *)

Lemma header_step_skip (data : pydict) (h : value) :
  wf_header h = true ->
  kept_header h = false ->
  header_step data h = Ok data.
Proof.
  destruct h as [| | | | |hd]; try discriminate.
  unfold wf_header, kept_header, named, Dict.mem, header_step, Py.getitem.
  destruct (Dict.lookup "name" hd) as [[| | |n| |]|]; try discriminate.
  destruct (Dict.lookup "value" hd) as [v|]; try discriminate.
  intros _ Hkept. cbn [bind Py.lower].
  unfold ci_eq in Hkept.
  change (Str.lower "From") with "from" in Hkept.
  change (Str.lower "Subject") with "subject" in Hkept.
  change (Str.lower "Date") with "date" in Hkept.
  apply orb_false_elim in Hkept. destruct Hkept as [Hkept Hd].
  apply orb_false_elim in Hkept. destruct Hkept as [Hf Hs].
  now rewrite Hf, Hs, Hd.
Qed.

Lemma headers_loop_filter (headers : list value) (data : pydict) :
  forallb wf_header headers = true ->
  headers_loop (filter kept_header headers) data = headers_loop headers data.
Proof.
  revert data.
  induction headers as [|h rest IH]; intros data Hwf; [reflexivity|].
  cbn [forallb] in Hwf. apply andb_prop in Hwf. destruct Hwf as [Hh Hrest].
  cbn [filter]. destruct (kept_header h) eqn:Hk; cbn [headers_loop].
  - destruct (header_step data h); cbn [bind]; auto.
  - rewrite (header_step_skip data h Hh Hk). cbn [bind]. auto.
Qed.

Lemma forallb_filter {A} (p q : A -> bool) (l : list A) :
  forallb p l = true -> forallb p (filter q l) = true.
Proof.
  induction l as [|x l IH]; simpl; auto.
  intros H. apply andb_prop in H. destruct H as [Hx Hl].
  destruct (q x); simpl; auto. now rewrite Hx, IH.
Qed.

(** What replacing one field of the payload leaves in place. *)
Lemma payload_replaced (m : pydict) (k : string) (x : value) :
  let msg' := VDict (Dict.set "payload"
                       (VDict (Dict.set k x (payload_of (VDict m)))) m) in
  payload_of msg' = Dict.set k x (payload_of (VDict m)) /\
  (forall key dflt, key <> "payload" ->
                    field_or msg' key dflt = field_or (VDict m) key dflt) /\
  Py.getitem msg' "id" = Py.getitem (VDict m) "id" /\
  carries_id msg' = carries_id (VDict m).
Proof.
  cbn zeta. unfold payload_of at 1.
  rewrite lookup_set_eq. split; [reflexivity|].
  split; [|split].
  - intros key dflt Hkey. unfold field_or. now rewrite lookup_set_ne.
  - unfold Py.getitem. now rewrite lookup_set_ne by discriminate.
  - unfold carries_id, Dict.mem. now rewrite lookup_set_ne by discriminate.
Qed.

Lemma decode_body_field (p q : pydict) :
  Dict.lookup "body" p = Dict.lookup "body" q ->
  decode_body (VDict p) = decode_body (VDict q).
Proof. intros H. unfold decode_body, Py.getitem. now rewrite H. Qed.

(** X10: headers with other names than From, Subject and Date leave no mark:
    the record of a well-formed message is the record of the same message
    with those headers taken out of its header list. *)
Theorem other_headers_are_ignored (now : string) (msg : value) :
  well_formed msg = true ->
  carries_id msg = true ->
  parse_email now (with_headers (filter kept_header (headers_of msg)) msg) =
  parse_email now msg.
Proof.
  intros Hwf Hid.
  pose proof (wf_headers msg Hwf) as Hhs.
  pose proof (wf_parts msg Hwf) as Hps.
  destruct msg as [| | | | |m]; try discriminate.
  set (hs := filter kept_header (headers_of (VDict m))) in *.
  destruct (payload_replaced m "headers" (VList hs))
    as (Hpay & Hfield & Hgetid & Hcid).
  cbn zeta in *. unfold with_headers.
  set (msg' := VDict (Dict.set "payload"
                        (VDict (Dict.set "headers" (VList hs)
                                  (payload_of (VDict m)))) m)) in *.
  assert (Hheaders' : headers_of msg' = hs).
  { unfold headers_of. rewrite Hpay. now rewrite lookup_set_eq. }
  assert (Hparts' : parts_of msg' = parts_of (VDict m)).
  { unfold parts_of. rewrite Hpay. now rewrite lookup_set_ne by discriminate. }
  assert (Hwf' : well_formed msg' = true).
  { unfold well_formed, msg'. rewrite lookup_set_eq.
    unfold wf_payload. rewrite lookup_set_eq.
    rewrite lookup_set_ne by discriminate.
    unfold hs. rewrite (forallb_filter _ _ _ Hhs). cbn [andb].
    unfold parts_of in Hps.
    destruct (Dict.lookup "parts" (payload_of (VDict m))) as [[| | | |ps|]|];
      try discriminate; auto; tauto. }
  destruct (parse_email_wf now (VDict m) Hwf Hid)
    as (idv & data & atts & Hidv & Hloop & Hatts & Hrun).
  destruct (parse_email_wf now msg' Hwf' (eq_trans Hcid Hid))
    as (idv' & data' & atts' & Hidv' & Hloop' & Hatts' & Hrun').
  rewrite Hrun, Hrun'.
  rewrite Hgetid, Hidv in Hidv'. injection Hidv' as <-.
  rewrite Hparts', Hatts in Hatts'. injection Hatts' as <-.
  rewrite Hheaders' in Hloop'. unfold hs in Hloop'.
  rewrite (headers_loop_filter _ _ Hhs), Hloop in Hloop'.
  injection Hloop' as <-.
  unfold assemble, selected_text.
  rewrite !Hfield by discriminate. rewrite Hparts', Hpay.
  rewrite (decode_body_field (Dict.set "headers" (VList hs) (payload_of (VDict m)))
             (payload_of (VDict m)))
    by (now rewrite lookup_set_ne by discriminate).
  reflexivity.
Qed.

Lemma other_headers_are_ignored_witness :
  parse_email clock
    (message_with "m8"
       [("headers", VList
           [VDict [("name", VStr "From"); ("value", VStr "uno@x.com")];
            VDict [("name", VStr "DATE"); ("value", VStr "Mon, 1 Jan 2024")]]);
        ("body", VDict [("data", VStr "SGVsbG8=")])])
  = parse_email clock noisy_msg.
Proof.
  exact (other_headers_are_ignored clock noisy_msg eq_refl eq_refl).
Defined.

Lemma wf_headers_field (msg : value) :
  well_formed msg = true ->
  match Dict.lookup "headers" (payload_of msg) with
  | None => true
  | Some (VList hs) => forallb wf_header hs
  | Some _ => false
  end = true.
Proof.
  unfold payload_of, well_formed.
  destruct msg as [| | | | |m]; try discriminate.
  destruct (Dict.lookup "payload" m) as [p|]; [|reflexivity].
  destruct p as [| | | | |pd]; try discriminate. cbn [wf_payload].
  intros H. apply andb_prop in H. tauto.
Qed.

Lemma top_level_text_plain_only (parts : list value) :
  top_level_text (filter is_plain_text parts) = top_level_text parts.
Proof.
  unfold top_level_text.
  induction parts as [|p rest IH]; [reflexivity|].
  cbn [filter find]. destruct (is_plain_text p) eqn:Hp; cbn [find andb].
  - rewrite Hp. cbn [andb]. destruct (decodes p); auto.
  - exact IH.
Qed.

(** X11: parts that are not plain text are never read for the body: with a
    parts list, the body of the record is the body obtained from the same
    message with every part of another MIME type (HTML, binary,
    multipart) taken out of the list. *)
Theorem body_ignores_other_parts
    (now : string) (msg : value) (ps : list value) :
  well_formed msg = true ->
  carries_id msg = true ->
  parts_of msg = Some ps ->
  exists r r',
    parse_email now msg = Ok r /\
    parse_email now (with_parts (filter is_plain_text ps) msg) = Ok r' /\
    Dict.lookup "body" r' = Dict.lookup "body" r.
Proof.
  intros Hwf Hid Hparts.
  pose proof (wf_parts msg Hwf) as Hps. rewrite Hparts in Hps.
  destruct Hps as [_ Hdicts].
  destruct msg as [| | | | |m]; try discriminate.
  destruct (payload_replaced m "parts" (VList (filter is_plain_text ps)))
    as (Hpay & Hfield & Hgetid & Hcid).
  cbn zeta in *. unfold with_parts.
  set (msg' := VDict (Dict.set "payload"
                        (VDict (Dict.set "parts" (VList (filter is_plain_text ps))
                                  (payload_of (VDict m)))) m)) in *.
  assert (Hparts' : parts_of msg' = Some (filter is_plain_text ps)).
  { unfold parts_of. rewrite Hpay. now rewrite lookup_set_eq. }
  assert (Hwf' : well_formed msg' = true).
  { unfold well_formed, msg'. rewrite lookup_set_eq.
    unfold wf_payload. rewrite lookup_set_eq.
    rewrite lookup_set_ne by discriminate.
    rewrite (forallb_filter _ _ _ Hdicts), andb_true_r.
    exact (wf_headers_field (VDict m) Hwf). }
  destruct (parse_email_wf now (VDict m) Hwf Hid)
    as (idv & data & atts & _ & _ & _ & Hrun).
  destruct (parse_email_wf now msg' Hwf' (eq_trans Hcid Hid))
    as (idv' & data' & atts' & _ & _ & _ & Hrun').
  eexists. eexists. split; [exact Hrun|]. split; [exact Hrun'|].
  rewrite !assemble_body. unfold selected_text.
  rewrite Hparts, Hparts'. now rewrite top_level_text_plain_only.
Qed.

Lemma body_ignores_other_parts_witness :
  exists r r',
    parse_email clock mixed_msg = Ok r /\
    parse_email clock
      (with_parts [broken_plain_part; empty_plain_part; plain_part] mixed_msg)
      = Ok r' /\
    Dict.lookup "body" r' = Dict.lookup "body" r.
Proof.
  exact (body_ignores_other_parts clock mixed_msg
           [html_part; broken_plain_part; empty_plain_part; plain_part; pdf_part]
           eq_refl eq_refl eq_refl).
Defined.

Lemma mem_keys (k : string) (d : pydict) :
  Dict.mem k d = true <-> In k (keys d).
Proof.
  unfold Dict.mem, keys.
  induction d as [|[k' v] d IH]; cbn [Dict.lookup map fst In].
  - split; [discriminate|tauto].
  - destruct (String.eqb k k') eqn:E.
    + apply String.eqb_eq in E. subst. tauto.
    + apply String.eqb_neq in E. rewrite IH. split; [tauto|].
      intros [H|H]; [congruence|exact H].
Qed.

Lemma keys_set (k : string) (v : value) (d : pydict) :
  keys (Dict.set k v d) = if Dict.mem k d then keys d else keys d ++ [k].
Proof.
  unfold Dict.mem, keys.
  induction d as [|[k' v'] d IH]; cbn [Dict.set Dict.lookup map fst app].
  - reflexivity.
  - destruct (String.eqb k k') eqn:E; cbn [map fst].
    + apply String.eqb_eq in E. now subst.
    + rewrite IH. now destruct (Dict.lookup k d).
Qed.

Lemma keys_set_nodup (k : string) (v : value) (d : pydict) :
  NoDup (keys d) -> NoDup (keys (Dict.set k v d)).
Proof.
  intros H. rewrite keys_set.
  destruct (Dict.mem k d) eqn:E; [exact H|].
  apply NoDup_app; [exact H|repeat constructor; intros []|].
  intros x Hx [<-|[]]. apply mem_keys in Hx. congruence.
Qed.

Lemma keys_set_in (k : string) (v : value) (d : pydict) (x : string) :
  In x (keys (Dict.set k v d)) -> x = k \/ In x (keys d).
Proof.
  rewrite keys_set. destruct (Dict.mem k d); [tauto|].
  intros H. apply in_app_or in H. destruct H as [H|[<-|[]]]; tauto.
Qed.

Lemma keys_set_first2 (k : string) (v : value) (d : pydict) (a b : string) :
  firstn 2 (keys d) = [a; b] -> firstn 2 (keys (Dict.set k v d)) = [a; b].
Proof.
  rewrite keys_set. destruct (Dict.mem k d); [auto|].
  destruct (keys d) as [|x [|y l]]; try discriminate. auto.
Qed.

Lemma sound_keys_set (k : string) (v : value) (d : pydict) :
  In k record_fields -> sound_keys d -> sound_keys (Dict.set k v d).
Proof.
  intros Hk (Hnodup & Hin & Hfirst). split; [|split].
  - now apply keys_set_nodup.
  - intros x Hx. apply keys_set_in in Hx. destruct Hx as [->|Hx]; auto.
  - now apply keys_set_first2.
Qed.

Lemma header_step_keys (data data' : pydict) (h : value) :
  header_step data h = Ok data' -> sound_keys data -> sound_keys data'.
Proof.
  unfold header_step.
  destruct (Py.getitem h "name") as [n|]; cbn [bind]; try discriminate.
  destruct (Py.lower n) as [name|]; cbn [bind]; try discriminate.
  destruct (Py.getitem h "value") as [v|]; cbn [bind]; try discriminate.
  destruct (String.eqb name "from");
    [|destruct (String.eqb name "subject");
       [|destruct (String.eqb name "date")]];
    intros [= <-]; auto; apply sound_keys_set; cbn; tauto.
Qed.

Lemma headers_loop_keys (headers : list value) (data data' : pydict) :
  headers_loop headers data = Ok data' -> sound_keys data -> sound_keys data'.
Proof.
  revert data.
  induction headers as [|h rest IH]; cbn [headers_loop]; intros data H.
  - now injection H as <-.
  - destruct (header_step data h) as [d1|] eqn:E; cbn [bind] in H;
      try discriminate.
    intros Hd. apply (IH _ H). exact (header_step_keys _ _ _ E Hd).
Qed.

(** X12: every record [parse_email] returns, for any message at all, has
    pairwise distinct keys, all of them among the nine fields of the
    record, with the identifier and the extraction time first; nothing
    else of the message (thread, sizes, attachment identifiers, other
    headers) is carried over. *)
Theorem record_has_only_its_fields (now : string) (msg : value) (r : pydict) :
  parse_email now msg = Ok r ->
  NoDup (keys r) /\
  (forall key, Dict.mem key r = true -> In key record_fields) /\
  firstn 2 (keys r) = ["id"; "fecha_extraccion"].
Proof.
  unfold parse_email. intros H. bind_inv H. injection H as <-.
  match goal with
  | Hl : headers_loop _ ?d0 = Ok ?d |- _ =>
      assert (Hd : sound_keys d)
  end.
  { eapply headers_loop_keys; [eassumption|].
    split; [|split]; [|cbn; tauto|reflexivity].
    cbn. repeat constructor; cbn; intros H; repeat destruct H as [H|H];
      try discriminate; exact H. }
  match goal with
  | |- NoDup (keys ?r) /\ _ => assert (Hr : sound_keys r)
  end.
  { repeat apply sound_keys_set; cbn; tauto. }
  destruct Hr as (Hnodup & Hin & Hfirst).
  split; [exact Hnodup|]. split; [|exact Hfirst].
  intros key Hkey. apply Hin. now apply mem_keys.
Qed.

Lemma record_has_only_its_fields_witness :
  exists r,
    parse_email clock round_trip_msg = Ok r /\
    NoDup (keys r) /\
    Dict.mem "threadId" r = false.
Proof.
  destruct (parse_email clock round_trip_msg) as [r|] eqn:Hrun;
    [|vm_compute in Hrun; discriminate].
  destruct (record_has_only_its_fields clock round_trip_msg r Hrun)
    as (Hnodup & Hin & _).
  exists r. split; [reflexivity|]. split; [exact Hnodup|].
  destruct (Dict.mem "threadId" r) eqn:E; [|reflexivity].
  apply Hin in E. cbn in E.
  repeat destruct E as [E|E]; try discriminate. contradiction.
Defined.

Lemma get_raises (v : value) (k : string) (dflt : value) (e : exn) :
  Py.get v k dflt = Raise e -> lookup_error e = true.
Proof.
  destruct v; cbn [Py.get]; try (intros [= <-]; reflexivity).
  destruct (Dict.lookup k d); discriminate.
Qed.

Lemma getitem_raises (v : value) (k : string) (e : exn) :
  Py.getitem v k = Raise e -> lookup_error e = true.
Proof.
  destruct v; cbn [Py.getitem]; try (intros [= <-]; reflexivity).
  destruct (Dict.lookup k d); [discriminate|intros [= <-]; reflexivity].
Qed.

Lemma iter_raises (v : value) (e : exn) :
  Py.iter v = Raise e -> lookup_error e = true.
Proof. destruct v; cbn [Py.iter]; try discriminate; intros [= <-]; reflexivity. Qed.

Lemma contains_raises (k : string) (v : value) (e : exn) :
  Py.contains k v = Raise e -> lookup_error e = true.
Proof.
  destruct v; cbn [Py.contains]; try discriminate; intros [= <-]; reflexivity.
Qed.

Lemma lower_raises (v : value) (e : exn) :
  Py.lower v = Raise e -> lookup_error e = true.
Proof. destruct v; cbn [Py.lower]; try discriminate; intros [= <-]; reflexivity. Qed.

Lemma header_step_raises (data : pydict) (h : value) (e : exn) :
  header_step data h = Raise e -> lookup_error e = true.
Proof.
  unfold header_step.
  destruct (Py.getitem h "name") as [n|] eqn:E1; cbn [bind];
    [|intros [= <-]; eapply getitem_raises; eassumption].
  destruct (Py.lower n) as [name|] eqn:E2; cbn [bind];
    [|intros [= <-]; eapply lower_raises; eassumption].
  destruct (Py.getitem h "value") as [v|] eqn:E3; cbn [bind];
    [|intros [= <-]; eapply getitem_raises; eassumption].
  repeat match goal with |- context [if ?c then _ else _] => destruct c end;
    discriminate.
Qed.

Lemma headers_loop_raises (headers : list value) (data : pydict) (e : exn) :
  headers_loop headers data = Raise e -> lookup_error e = true.
Proof.
  revert data.
  induction headers as [|h rest IH]; cbn [headers_loop]; intros data;
    [discriminate|].
  destruct (header_step data h) as [d1|] eqn:E; cbn [bind].
  - apply IH.
  - intros [= <-]. eapply header_step_raises; eassumption.
Qed.

Lemma body_loop_raises (parts : list value) (body : string) (e : exn) :
  body_loop parts body = Raise e -> lookup_error e = true.
Proof.
  induction parts as [|part rest IH]; cbn [body_loop]; [discriminate|].
  destruct (Py.get part "mimeType" VNone) as [mime|] eqn:E; cbn [bind].
  - destruct (Py.eq_str mime "text/plain"); [|exact IH].
    destruct (decode_body part); [discriminate|exact IH].
  - intros [= <-]. eapply get_raises; eassumption.
Qed.

Lemma attachments_loop_raises (parts acc : list value) (e : exn) :
  attachments_loop parts acc = Raise e -> lookup_error e = true.
Proof.
  revert acc.
  induction parts as [|part rest IH]; cbn [attachments_loop]; intros acc;
    [discriminate|].
  destruct (Py.get part "filename" VNone) as [f|] eqn:E; cbn [bind].
  - apply IH.
  - intros [= <-]. eapply get_raises; eassumption.
Qed.

Ltac raise_inv H :=
  repeat match type of H with
    | bind ?e _ = Raise _ =>
        let x := fresh "x" in
        let E := fresh "E" in
        destruct e as [x|] eqn:E; cbn [bind] in H;
        [|injection H as <-;
          first [ eapply get_raises; eassumption
                | eapply getitem_raises; eassumption
                | eapply iter_raises; eassumption
                | eapply contains_raises; eassumption
                | eapply headers_loop_raises; eassumption
                | idtac ]]
    end.

(** X13: whatever the message, no decoding error leaves [parse_email]: the
    exceptions it can raise are those of a missing key or of a field of
    the wrong type ([KeyError], [TypeError], [AttributeError]), never the
    ones of the base64 decoding ([binascii.Error], [ValueError]). *)
Theorem decode_errors_never_escape (now : string) (msg : value) (e : exn) :
  parse_email now msg = Raise e ->
  lookup_error e = true /\ e <> BinasciiError /\ e <> ValueError.
Proof.
  intros H.
  assert (He : lookup_error e = true).
  { unfold parse_email in H. raise_inv H; try discriminate;
      match goal with
      | Hif : (if ?b then _ else _) = Raise _ |- _ =>
          destruct b;
          [ raise_inv Hif;
            first [ eapply body_loop_raises; eassumption
                  | eapply attachments_loop_raises; eassumption ]
          | try discriminate;
            match type of Hif with
            | try_except ?d _ = _ => destruct d; discriminate
            end ]
      end. }
  split; [exact He|]. split; intros ->; discriminate.
Qed.

Lemma decode_errors_never_escape_witness :
  lookup_error (KeyError (VStr "id")) = true /\
  KeyError (VStr "id") <> BinasciiError /\ KeyError (VStr "id") <> ValueError.
Proof.
  exact (decode_errors_never_escape clock no_id_msg (KeyError (VStr "id")) eq_refl).
Defined.

(** X9: the exception the provider raises for the identifier asked for (an
    unknown identifier, a failed call) is the one [main] raises, right
    after the fetch: nothing is parsed, no directory is created and no
    file is written. *)
Theorem provider_error_is_raised
    (args : Namespace) (w : env) (t0 : list event) (s : string) (e : exn) :
  get_gmail_service w = (t0, Ok tt) ->
  id_given args = Some s ->
  messages_get w (VStr s) = Raise e ->
  fetch_email_by_id (VStr s) w = ([EvGet (VStr s)], Raise e) /\
  main args w = (t0 ++ [reading_notice s; EvGet (VStr s)], Raise e).
Proof.
  intros Hsvc Hid Hget. split.
  - unfold fetch_email_by_id, pbind, emit, ask, lift. now rewrite Hget.
  - rewrite main_run, (prelude_id_mode args w s Hid), Hsvc, Hget.
    now rewrite <- app_assoc.
Qed.

Lemma provider_error_is_raised_witness :
  main (id_flag "zz") (mailbox (Raise (HttpError 500)) [("m1", mixed_msg)]) =
  ([EvTokenExists; EvReadToken; EvBuild; reading_notice "zz"; EvGet (VStr "zz")],
   Raise (HttpError 404)).
Proof.
  exact (proj2 (provider_error_is_raised (id_flag "zz")
                  (mailbox (Raise (HttpError 500)) [("m1", mixed_msg)])
                  [EvTokenExists; EvReadToken; EvBuild] "zz" (HttpError 404)
                  eq_refl eq_refl eq_refl)).
Defined.

(** * Properties of the authorisation script *)

Lemma interactive_flow_cases (w : AuthTest.env) :
  AuthTest.interactive_flow w =
  match AuthTest.from_client_secrets_file w with
  | Raise e => ([AuthTest.ClientSecrets], Raise e)
  | Ok _ =>
      match AuthTest.run_local_server w with
      | Raise e => ([AuthTest.ClientSecrets; AuthTest.LocalServer], Raise e)
      | Ok c => ([AuthTest.ClientSecrets; AuthTest.LocalServer], Ok c)
      end
  end.
Proof.
  unfold AuthTest.interactive_flow, AuthTest.pbind, AuthTest.emit, AuthTest.ask.
  destruct (AuthTest.from_client_secrets_file w); [|reflexivity].
  destruct (AuthTest.run_local_server w); reflexivity.
Qed.

Lemma authorize_cases (w : AuthTest.env) :
  AuthTest.authorize w =
  if AuthTest.token_exists w then
    match AuthTest.from_authorized_user_file w with
    | Raise e => ([AuthTest.TokenExists; AuthTest.ReadToken], Raise e)
    | Ok c =>
        if AuthTest.valid c
        then ([AuthTest.TokenExists; AuthTest.ReadToken], Ok c)
        else if AuthTest.expired c && Py.truthy (AuthTest.refresh_token c)
        then renewal w [AuthTest.TokenExists; AuthTest.ReadToken]
               ([AuthTest.Refresh], AuthTest.refresh w c)
        else renewal w [AuthTest.TokenExists; AuthTest.ReadToken]
               (AuthTest.interactive_flow w)
    end
  else renewal w [AuthTest.TokenExists] (AuthTest.interactive_flow w).
Proof.
  unfold AuthTest.authorize, AuthTest.load_token, AuthTest.pbind,
    AuthTest.emit, AuthTest.ask, AuthTest.ret, renewal.
  destruct (AuthTest.token_exists w).
  - destruct (AuthTest.from_authorized_user_file w) as [c|e]; [|reflexivity].
    cbn [app AuthTest.needs_renewal AuthTest.can_refresh].
    destruct (AuthTest.valid c); cbn [negb]; [reflexivity|].
    destruct (AuthTest.expired c && Py.truthy (AuthTest.refresh_token c)).
    + destruct (AuthTest.refresh w c); reflexivity.
    + destruct (AuthTest.interactive_flow w) as [t [c'|e]]; cbn [app];
        rewrite ?app_nil_r; reflexivity.
  - cbn [app].
    destruct (AuthTest.interactive_flow w) as [t [c'|e]]; cbn [app];
      rewrite ?app_nil_r; reflexivity.
Qed.

Lemma print_ids_quiet (ms : list value) (w : AuthTest.env) :
  existsb AuthTest.renews (fst (AuthTest.print_ids ms w)) = false.
Proof.
  induction ms as [|m rest IH]; [reflexivity|].
  cbn [AuthTest.print_ids]. unfold AuthTest.pbind, AuthTest.lift, AuthTest.emit.
  destruct (Py.getitem m "id"); [|reflexivity].
  destruct (AuthTest.print_ids rest w) as [t r]. exact IH.
Qed.

Lemma report_quiet (w : AuthTest.env) :
  existsb AuthTest.renews (fst (AuthTest.report w)) = false.
Proof.
  unfold AuthTest.report, AuthTest.pbind, AuthTest.emit, AuthTest.ask,
    AuthTest.lift.
  destruct (AuthTest.messages_list w) as [results|]; [|reflexivity].
  destruct (Py.get results "messages" (VList [])) as [messages|]; [|reflexivity].
  destruct (Py.truthy messages); cbn [negb]; [|reflexivity].
  destruct (Py.iter messages) as [ms|]; [|reflexivity].
  pose proof (print_ids_quiet ms w) as H.
  destruct (AuthTest.print_ids ms w) as [t r]. exact H.
Qed.

Lemma auth_main_run (w : AuthTest.env) :
  AuthTest.main w =
  match AuthTest.authorize w with
  | (t, Raise e) => (t, Raise e)
  | (t, Ok _) =>
      match AuthTest.build w with
      | Raise e => (t ++ [AuthTest.Build], Raise e)
      | Ok _ =>
          let (t', r) := AuthTest.report w in
          (t ++ AuthTest.Build :: t', r)
      end
  end.
Proof.
  unfold AuthTest.main, AuthTest.pbind, AuthTest.emit, AuthTest.ask.
  destruct (AuthTest.authorize w) as [t [c|e]]; [|reflexivity].
  destruct (AuthTest.build w); [|reflexivity].
  destruct (AuthTest.report w) as [t' r]. reflexivity.
Qed.

(** X14: valid stored credentials are used as they are: nothing is refreshed,
    the interactive flow is not started and the token file is not
    rewritten, in the whole run. *)
Theorem valid_token_is_left_alone (w : AuthTest.env) (c : AuthTest.credentials) :
  AuthTest.token_exists w = true ->
  AuthTest.from_authorized_user_file w = Ok c ->
  AuthTest.valid c = true ->
  AuthTest.authorize w = ([AuthTest.TokenExists; AuthTest.ReadToken], Ok c) /\
  existsb AuthTest.renews (fst (AuthTest.main w)) = false.
Proof.
  intros Hex Hfile Hvalid.
  assert (Hauth : AuthTest.authorize w =
                  ([AuthTest.TokenExists; AuthTest.ReadToken], Ok c))
    by (rewrite authorize_cases, Hex, Hfile, Hvalid; reflexivity).
  split; [exact Hauth|].
  rewrite auth_main_run, Hauth.
  destruct (AuthTest.build w); [|reflexivity].
  pose proof (report_quiet w) as H.
  destruct (AuthTest.report w) as [t' r]. exact H.
Qed.

Lemma valid_token_is_left_alone_witness :
  existsb AuthTest.renews
    (fst (AuthTest.main (AuthTest.sample true AuthTest.fresh two_listed))) = false.
Proof.
  exact (proj2 (valid_token_is_left_alone
                  (AuthTest.sample true AuthTest.fresh two_listed)
                  AuthTest.fresh eq_refl eq_refl eq_refl)).
Defined.

(** X15: the credentials the script goes on with are either the valid stored
    ones, with nothing renewed, or renewed ones (refreshed, or obtained
    from the interactive flow) whose JSON has just been written to the
    token file, once, as the last step of the renewal. *)
Theorem renewed_credentials_are_stored
    (w : AuthTest.env) (t : list AuthTest.event) (c : AuthTest.credentials) :
  AuthTest.authorize w = (t, Ok c) ->
  (t = [AuthTest.TokenExists; AuthTest.ReadToken] /\
   AuthTest.from_authorized_user_file w = Ok c /\ AuthTest.valid c = true) \/
  (exists pre,
      t = pre ++ [AuthTest.WriteToken (AuthTest.to_json c)] /\
      existsb AuthTest.is_write_token pre = false /\
      existsb AuthTest.renews pre = true).
Proof.
  rewrite authorize_cases.
  destruct (AuthTest.token_exists w) eqn:Hex.
  - destruct (AuthTest.from_authorized_user_file w) as [c0|e] eqn:Hfile;
      [|discriminate].
    destruct (AuthTest.valid c0) eqn:Hvalid.
    + intros [= <- <-]. left. auto.
    + destruct (AuthTest.expired c0 && Py.truthy (AuthTest.refresh_token c0)).
      * unfold renewal.
        destruct (AuthTest.refresh w c0) as [c'|e]; [|discriminate].
        intros [= <- <-]. right.
        exists [AuthTest.TokenExists; AuthTest.ReadToken; AuthTest.Refresh].
        repeat split.
      * rewrite interactive_flow_cases. unfold renewal.
        destruct (AuthTest.from_client_secrets_file w); [|discriminate].
        destruct (AuthTest.run_local_server w) as [c'|e]; [|discriminate].
        intros [= <- <-]. right.
        exists [AuthTest.TokenExists; AuthTest.ReadToken;
                AuthTest.ClientSecrets; AuthTest.LocalServer].
        repeat split.
  - rewrite interactive_flow_cases. unfold renewal.
    destruct (AuthTest.from_client_secrets_file w); [|discriminate].
    destruct (AuthTest.run_local_server w) as [c'|e]; [|discriminate].
    intros [= <- <-]. right.
    exists [AuthTest.TokenExists; AuthTest.ClientSecrets; AuthTest.LocalServer].
    repeat split.
Qed.

Lemma renewed_credentials_are_stored_witness :
  exists pre,
    fst (AuthTest.authorize
           (AuthTest.sample true (AuthTest.stored AuthTest.fresh) two_listed))
    = pre ++ [AuthTest.WriteToken "{token: fresh}"] /\
    existsb AuthTest.renews pre = true.
Proof.
  destruct (renewed_credentials_are_stored
              (AuthTest.sample true (AuthTest.stored AuthTest.fresh) two_listed)
              [AuthTest.TokenExists; AuthTest.ReadToken; AuthTest.Refresh;
               AuthTest.WriteToken "{token: fresh}"]
              AuthTest.fresh eq_refl)
    as [[H _]|[pre [Ht [_ Hr]]]]; [discriminate|].
  exists pre. split; [exact Ht|exact Hr].
Defined.

Lemma report_no_refresh (w : AuthTest.env) (e : AuthTest.event) :
  In e (fst (AuthTest.report w)) -> AuthTest.renews e = false.
Proof.
  intros Hin. pose proof (report_quiet w) as H.
  destruct (AuthTest.renews e) eqn:E; [|reflexivity].
  assert (existsb AuthTest.renews (fst (AuthTest.report w)) = true)
    by (apply existsb_exists; eauto).
  congruence.
Qed.

(** X16: the stored credentials are refreshed exactly when the token file
    exists and holds credentials that are not valid, are expired and
    carry a refresh token; the interactive flow is then never started in
    that run, not even when the refresh fails. *)
Theorem refresh_only_for_expired_credentials (w : AuthTest.env) :
  (In AuthTest.Refresh (fst (AuthTest.main w)) <->
   exists c,
     AuthTest.token_exists w = true /\
     AuthTest.from_authorized_user_file w = Ok c /\
     AuthTest.valid c = false /\
     AuthTest.expired c = true /\
     Py.truthy (AuthTest.refresh_token c) = true) /\
  (In AuthTest.Refresh (fst (AuthTest.main w)) ->
   ~ In AuthTest.ClientSecrets (fst (AuthTest.main w)) /\
   ~ In AuthTest.LocalServer (fst (AuthTest.main w))).
Proof.
  assert (Hrep : forall e, AuthTest.renews e = true ->
                           ~ In e (fst (AuthTest.report w))).
  { intros e He Hin. apply report_no_refresh in Hin. congruence. }
  assert (Hshape : forall t r,
             AuthTest.authorize w = (t, r) ->
             forall e, AuthTest.renews e = true ->
                       In e (fst (AuthTest.main w)) <-> In e t).
  { intros t r Hauth e He. rewrite auth_main_run, Hauth.
    destruct r as [c|x]; [|reflexivity].
    destruct (AuthTest.build w).
    - destruct (AuthTest.report w) as [t' r'] eqn:Hr. cbn [fst].
      specialize (Hrep e He). cbn [fst] in Hrep.
      rewrite in_app_iff. cbn [In].
      split; [intros [H|[H|H]]; [exact H|subst; discriminate|contradiction]|tauto].
    - cbn [fst]. rewrite in_app_iff. cbn [In].
      split; [intros [H|[H|[]]]; [exact H|subst; discriminate]|tauto]. }
  destruct (AuthTest.authorize w) as [t r] eqn:Hauth.
  rewrite !(Hshape t r eq_refl) by reflexivity.
  clear Hshape Hrep. rewrite authorize_cases in Hauth.
  assert (Hflow : forall pre t' r',
             renewal w pre (AuthTest.interactive_flow w) = (t', r') ->
             ~ In AuthTest.Refresh pre -> ~ In AuthTest.Refresh t').
  { intros pre t' r'. rewrite interactive_flow_cases. unfold renewal.
    destruct (AuthTest.from_client_secrets_file w);
      [destruct (AuthTest.run_local_server w)|];
      intros [= <- <-] Hpre Hin; apply in_app_or in Hin;
      destruct Hin as [Hin|Hin]; try contradiction;
      cbn [In app] in Hin; repeat destruct Hin as [Hin|Hin];
      try discriminate; contradiction. }
  destruct (AuthTest.token_exists w) eqn:Hex.
  - destruct (AuthTest.from_authorized_user_file w) as [c|x] eqn:Hfile.
    + destruct (AuthTest.valid c) eqn:Hvalid.
      * injection Hauth as <- <-. split; [split|].
        -- cbn [In]. intros [H|[H|[]]]; discriminate.
        -- intros (c' & _ & Hc' & Hv & _). injection Hc' as <-. congruence.
        -- cbn [In]. intros [H|[H|[]]]; discriminate.
      * destruct (AuthTest.expired c) eqn:Hexp;
          [destruct (Py.truthy (AuthTest.refresh_token c)) eqn:Hrt|];
          cbn [andb] in Hauth.
        -- split.
           ++ split; [intros _; exists c; auto|].
              intros _. unfold renewal in Hauth.
              destruct (AuthTest.refresh w c); injection Hauth as <- <-;
                cbn; auto.
           ++ intros _. unfold renewal in Hauth.
              destruct (AuthTest.refresh w c); injection Hauth as <- <-;
                cbn [In app]; split; intros H;
                repeat destruct H as [H|H]; try discriminate; contradiction.
        -- assert (Hno : ~ In AuthTest.Refresh t).
           { eapply Hflow; [exact Hauth|].
             cbn [In]. intros [H|[H|[]]]; discriminate. }
           split; [split|]; try (intros H; contradiction).
           intros (c' & _ & Hc' & _ & _ & Hrt'). injection Hc' as <-. congruence.
        -- assert (Hno : ~ In AuthTest.Refresh t).
           { eapply Hflow; [exact Hauth|].
             cbn [In]. intros [H|[H|[]]]; discriminate. }
           split; [split|]; try (intros H; contradiction).
           intros (c' & _ & Hc' & _ & Hexp' & _). injection Hc' as <-. congruence.
    + injection Hauth as <- <-. split; [split|].
      * cbn [In]. intros [H|[H|[]]]; discriminate.
      * intros (c' & _ & Hc' & _). discriminate.
      * cbn [In]. intros [H|[H|[]]]; discriminate.
  - assert (Hno : ~ In AuthTest.Refresh t).
    { eapply Hflow; [exact Hauth|]. cbn [In]. intros [H|[]]; discriminate. }
    split; [split|]; try (intros H; contradiction).
    intros (c' & Hex' & _). discriminate.
Qed.

Lemma refresh_only_for_expired_credentials_witness :
  In AuthTest.Refresh
     (fst (AuthTest.main
             (AuthTest.sample true (AuthTest.stored AuthTest.fresh) two_listed))) /\
  ~ In AuthTest.LocalServer
      (fst (AuthTest.main
              (AuthTest.sample true (AuthTest.stored AuthTest.fresh) two_listed))).
Proof.
  destruct (refresh_only_for_expired_credentials
              (AuthTest.sample true (AuthTest.stored AuthTest.fresh) two_listed))
    as [[_ Hif] Hexcl].
  assert (Hin : In AuthTest.Refresh
                   (fst (AuthTest.main
                           (AuthTest.sample true (AuthTest.stored AuthTest.fresh)
                              two_listed)))).
  { apply Hif. exists (AuthTest.stored AuthTest.fresh). repeat split. }
  split; [exact Hin|exact (proj2 (Hexcl Hin))].
Defined.

(** X17: a failed refresh ends the run: the exception is raised as it comes,
    the interactive flow is not tried in its place, the token file is not
    rewritten and no client is built. *)
Theorem failed_refresh_ends_the_run
    (w : AuthTest.env) (c : AuthTest.credentials) (e : exn) :
  AuthTest.token_exists w = true ->
  AuthTest.from_authorized_user_file w = Ok c ->
  AuthTest.valid c = false ->
  AuthTest.expired c = true ->
  Py.truthy (AuthTest.refresh_token c) = true ->
  AuthTest.refresh w c = Raise e ->
  AuthTest.main w =
  ([AuthTest.TokenExists; AuthTest.ReadToken; AuthTest.Refresh], Raise e).
Proof.
  intros Hex Hfile Hvalid Hexp Hrt Href.
  rewrite auth_main_run, authorize_cases, Hex, Hfile, Hvalid, Hexp, Hrt.
  cbn [andb]. unfold renewal. now rewrite Href.
Qed.

Lemma failed_refresh_ends_the_run_witness :
  AuthTest.main
    (failing_refresh (AuthTest.sample true (AuthTest.stored AuthTest.fresh) two_listed))
  = ([AuthTest.TokenExists; AuthTest.ReadToken; AuthTest.Refresh],
     Raise (HttpError 400)).
Proof.
  exact (failed_refresh_ends_the_run
           (failing_refresh
              (AuthTest.sample true (AuthTest.stored AuthTest.fresh) two_listed))
           (AuthTest.stored AuthTest.fresh) (HttpError 400)
           eq_refl eq_refl eq_refl eq_refl eq_refl eq_refl).
Defined.

Lemma print_ids_run (ms ids : list value) (w : AuthTest.env) :
  Forall2 (fun m v => Py.getitem m "id" = Ok v) ms ids ->
  AuthTest.print_ids ms w = (map AuthTest.id_line ids, Ok tt).
Proof.
  induction 1 as [|m v ms ids Hm _ IH]; [reflexivity|].
  cbn [AuthTest.print_ids map].
  unfold AuthTest.pbind, AuthTest.lift, AuthTest.emit. rewrite Hm, IH.
  reflexivity.
Qed.

(** X18: the report of the script: for a listing without messages the one
    line "No hay correos."; for a listing whose messages all carry an
    "id", the heading and then one line per message, in the order of the
    listing, with its identifier. *)
Theorem report_prints_each_id
    (w : AuthTest.env) (d : pydict) (ms ids : list value) :
  AuthTest.messages_list w = Ok (VDict d) ->
  Dict.lookup "messages" d = Some (VList ms) \/
  (Dict.lookup "messages" d = None /\ ms = []) ->
  Forall2 (fun m v => Py.getitem m "id" = Ok v) ms ids ->
  AuthTest.report w =
  (AuthTest.ListMessages ::
     match ms with
     | [] => [AuthTest.Print [Lit "No hay correos."]]
     | _ => AuthTest.Print [Lit "Últimos 5 correos:"] :: map AuthTest.id_line ids
     end,
   Ok tt).
Proof.
  intros Hlist Hmsgs Hids.
  unfold AuthTest.report, AuthTest.pbind, AuthTest.emit, AuthTest.ask,
    AuthTest.lift.
  rewrite Hlist. unfold Py.get.
  destruct Hmsgs as [Hmsgs|[Hmsgs ->]]; rewrite Hmsgs; [|reflexivity].
  destruct ms as [|m ms']; [reflexivity|].
  cbn [Py.truthy negb Py.iter].
  now rewrite (print_ids_run _ _ w Hids).
Qed.

Lemma report_prints_each_id_witness :
  AuthTest.report (AuthTest.sample true AuthTest.fresh two_listed) =
  ([AuthTest.ListMessages; AuthTest.Print [Lit "Últimos 5 correos:"];
    AuthTest.id_line (VStr "m3"); AuthTest.id_line (VStr "m1")],
   Ok tt).
Proof.
  apply (report_prints_each_id (AuthTest.sample true AuthTest.fresh two_listed)
           [("messages", VList [VDict [("id", VStr "m3"); ("threadId", VStr "m3")];
                                VDict [("id", VStr "m1"); ("threadId", VStr "m1")]]);
            ("resultSizeEstimate", VInt 2)]
           [VDict [("id", VStr "m3"); ("threadId", VStr "m3")];
            VDict [("id", VStr "m1"); ("threadId", VStr "m1")]]
           [VStr "m3"; VStr "m1"]).
  - reflexivity.
  - left. reflexivity.
  - repeat constructor.
Defined.
